(** * Health dashboard: the rule engine and the gamification engine

    A shallow embedding of [analyzeDiet], [analyzeExercise], [analyzeSleep]
    (App.tsx) and of [calculateGamificationState]
    (services/gamificationLogic.ts).

    Numbers.  A TypeScript [number] is an IEEE-754 binary64 value, and so is
    Rocq's primitive [float]: the fields of the entries, the sums, the averages
    and the comparisons with literals such as [0.57] are the kernel's binary64
    operations, rounding included.  Quantities that the code only ever counts
    (array lengths, [filter(..).length], the streak counters and the points)
    are integers far below 2^53: an array has fewer than 2^32 elements and an
    entry adds at most 45 points, so the double arithmetic on them is exact
    and they are kept in [nat] or [Z]. *)

From Stdlib Require Import ZArith List String Ascii Bool Floats Uint63.
From Stdlib Require Import QArith Qround DecimalString Permutation Sorted Lia.
From Stdlib Require Import DecimalPos DecimalZ.
Import ListNotations.

Set Warnings "-inexact-float".

(** ** The JavaScript built-ins the engines call *)

Module JS.

Definition number := float.

(** A signed mantissa, as [Prim2SF] exposes it. *)
Definition signed (s : bool) (m : positive) : Z :=
  if s then Z.neg m else Z.pos m.

(** The double of an integer ([|z| < 2^63]; exact when [|z| <= 2^53]). *)
Definition of_Z (z : Z) : number :=
  if (z <? 0)%Z
  then PrimFloat.opp (PrimFloat.of_uint63 (Uint63.of_Z (- z)))
  else PrimFloat.of_uint63 (Uint63.of_Z z).

(** [array.length] as a number. *)
Definition length_of {A : Type} (l : list A) : number :=
  of_Z (Z.of_nat (List.length l)).

(** [Math.floor].  A finite double is [m * 2^e]; with [e >= 0] it is already
    integral, and shifting right by [-e] rounds towards minus infinity.
    Zeros, infinities and NaN are returned unchanged. *)
Definition Math_floor (x : number) : number :=
  match Prim2SF x with
  | S754_finite s m e =>
      if (e <? 0)%Z then of_Z (Z.shiftl (signed s m) e) else x
  | _ => x
  end.

(** [Math.round]: the nearest integer, a tie going towards plus infinity;
    a negative argument that rounds to zero gives [-0]. *)
Definition Math_round (x : number) : number :=
  match Prim2SF x with
  | S754_finite s m e =>
      if (e <? 0)%Z then
        let n := Z.shiftr (2 * signed s m + 2 ^ (- e)) (- e + 1) in
        if (n =? 0)%Z && s then (-0)%float else of_Z n
      else x
  | _ => x
  end.

Definition digits_of (z : Z) : string := NilZero.string_of_int (Z.to_int z).

(** [Number::toString] as the template literal applies it to the result of
    [Math.round]: the decimal digits of an integral double.  It is exact for
    magnitudes up to 2^53; above that JavaScript prints the shortest digits
    that read back as the same double (and an exponent from 1e21 on), which
    is not reproduced here.  A fractional argument, which [Math.round] never
    yields, is printed by its integral part. *)
Definition Number_toString (x : number) : string :=
  match Prim2SF x with
  | S754_zero _ => "0"
  | S754_infinity s => if s then "-Infinity" else "Infinity"
  | S754_nan => "NaN"
  | S754_finite s m e => digits_of (Z.quot (Z.shiftl (signed s m) (Z.max e 0))
                                           (2 ^ Z.max (- e) 0))
  end.

(** [x.toFixed(1)]: with [n] the integer nearest to [|x| * 10] (the larger
    one on a tie), the digits of [n] with a point before the last one and a
    minus sign when [x < 0].  The computation is on the exact value of the
    double, as the language prescribes; from 1e21 on JavaScript falls back to
    [Number::toString], which is not reproduced. *)
Definition toFixed1 (x : number) : string :=
  match Prim2SF x with
  | S754_zero _ => "0.0"
  | S754_infinity s => if s then "-Infinity" else "Infinity"
  | S754_nan => "NaN"
  | S754_finite s m e =>
      let n := if (e <? 0)%Z
               then Z.shiftr (20 * Z.pos m + 2 ^ (- e)) (- e + 1)
               else (10 * Z.pos m * 2 ^ e)%Z in
      ((if s then "-" else "") ++ digits_of (n / 10) ++ "." ++ digits_of (n mod 10))%string
  end.

(** [s.split(sep)] for a one-character separator. *)
Fixpoint split (sep : ascii) (s : string) : list string :=
  match s with
  | EmptyString => [EmptyString]
  | String c r =>
      if Ascii.eqb c sep then EmptyString :: split sep r
      else match split sep r with
           | h :: t => String c h :: t
           | [] => [String c EmptyString]
           end
  end.

Definition digit_of (c : ascii) : option Z :=
  let n := Z.of_nat (nat_of_ascii c) in
  if (48 <=? n)%Z && (n <=? 57)%Z then Some (n - 48)%Z else None.

Definition is_space (c : ascii) : bool :=
  let n := nat_of_ascii c in
  (Nat.eqb n 32 || (Nat.leb 9 n && Nat.leb n 13))%bool.

Fixpoint skip_spaces (s : string) : string :=
  match s with
  | String c r => if is_space c then skip_spaces r else s
  | EmptyString => s
  end.

(** The longest prefix of decimal digits read as a number, with the rest. *)
Fixpoint read_digits (acc : Z) (seen : bool) (s : string) : option Z * string :=
  match s with
  | String c r =>
      match digit_of c with
      | Some d => read_digits (10 * acc + d) true r
      | None => (if seen then Some acc else None, s)
      end
  | EmptyString => (if seen then Some acc else None, s)
  end.

Definition read_sign (s : string) : bool * string :=
  match s with
  | String "-" r => (true, r)
  | String "+" r => (false, r)
  | _ => (false, s)
  end.

(** [Number(text)], with [None] for NaN.  White space around the numeral is
    dropped, the empty text is 0, and a numeral is a signed run of decimal
    digits: this covers the hour field of an [HH:mm] value.  Fractions,
    exponents, radix prefixes and [Infinity], which that field never holds,
    are read as NaN. *)
Definition Number (s : string) : option Z :=
  match skip_spaces s with
  | EmptyString => Some 0%Z
  | t =>
      let (neg, u) := read_sign t in
      match read_digits 0 false u with
      | (Some n, rest) =>
          match skip_spaces rest with
          | EmptyString => Some (if neg then (- n)%Z else n)
          | _ => None
          end
      | (None, _) => None
      end
  end.

(** [parseInt(text)] without a radix argument, [None] for NaN; the argument is
    [None] when the array element is [undefined].  Leading white space and a
    sign are accepted and what follows the digits is ignored.  The
    hexadecimal form [0x..] is not reproduced: after the zero the [x] ends
    the numeral. *)
Definition parseInt (s : option string) : option Z :=
  match s with
  | None => None
  | Some t =>
      let (neg, u) := read_sign (skip_spaces t) in
      match fst (read_digits 0 false u) with
      | Some n => Some (if neg then (- n)%Z else n)
      | None => None
      end
  end.

(** Days from 1970-01-01 to a civil date, in the proleptic Gregorian calendar. *)
Definition days_from_civil (y m d : Z) : Z :=
  let y' := if (m <=? 2)%Z then (y - 1)%Z else y in
  let era := (y' / 400)%Z in
  let yoe := (y' - era * 400)%Z in
  let mp := if (2 <? m)%Z then (m - 3)%Z else (m + 9)%Z in
  let doy := ((153 * mp + 2) / 5 + d - 1)%Z in
  let doe := (yoe * 365 + yoe / 4 - yoe / 100 + doy)%Z in
  (era * 146097 + doe - 719468)%Z.

Definition all_digits (s : string) : option Z :=
  match read_digits 0 false s with
  | (Some n, EmptyString) => Some n
  | _ => None
  end.

(** [new Date(text).getTime()] for the date-only form [YYYY-MM-DD] that the
    entries carry: milliseconds since the epoch at UTC midnight, [None] for
    NaN (an invalid date).  A day number up to 31 that its month does not
    have rolls into the next month, as V8 reads it.  The other forms that
    JavaScript accepts (a year alone, a date with a time, ...) are not
    reproduced and are read as invalid. *)
Definition Date_getTime (s : string) : option Z :=
  if negb (Nat.eqb (String.length s) 10) then None else
  match all_digits (substring 0 4 s), all_digits (substring 5 2 s),
        all_digits (substring 8 2 s) with
  | Some y, Some m, Some d =>
      if (String.eqb (substring 4 1 s) "-" && String.eqb (substring 7 1 s) "-"
          && (1 <=? m)%Z && (m <=? 12)%Z && (1 <=? d)%Z && (d <=? 31)%Z)%bool
      then Some (days_from_civil y m d * 86400000)%Z
      else None
  | _, _, _ => None
  end.

(** [array.sort(compareFn)]: the sort is stable, an element moves behind
    another only when the comparator is positive on the pair, and a NaN
    result counts as zero; [compareFn] returns [None] for NaN.  When the
    comparator is consistent (no NaN: every date is valid) a stable sort has
    one possible result, and this is it.  When it returns NaN on some pair
    the language leaves the order to the engine; the order computed here is
    then one admissible order, not necessarily the engine's, and nothing
    below is stated of it. *)
Section Sort.
Context {A : Type} (compareFn : A -> A -> option Z).

Definition after (a b : A) : bool :=
  match compareFn a b with
  | Some v => (0 <? v)%Z
  | None => false
  end.

Fixpoint insert (x : A) (l : list A) : list A :=
  match l with
  | [] => [x]
  | y :: t => if after x y then y :: insert x t else x :: y :: t
  end.

Fixpoint sort (l : list A) : list A :=
  match l with
  | [] => []
  | x :: t => insert x (sort t)
  end.
End Sort.

End JS.

(** ** types.ts *)

Record DietData := {
  diet_id : string;
  diet_date : string;
  calorieIntake : JS.number;
  vegRatio : JS.number;
  proteinRatio : JS.number;
  starchRatio : JS.number;
  sugaryDrinksCount : JS.number;
  friedFoodCount : JS.number;
  imageUrl : option string
}.

Record ExerciseData := {
  exercise_id : string;
  exercise_date : string;
  dailySteps : JS.number;
  moderateExerciseMinutes : JS.number;
  totalSittingMinutes : JS.number
}.

Record SleepData := {
  sleep_id : string;
  sleep_date : string;
  bedTime : string;
  wakeTime : string;
  sleepDuration : JS.number;
  usedPhoneBeforeBed : bool
}.

Inductive Category := Diet | Exercise | Sleep.
Inductive Priority := High | Medium | Low.

Record AdviceItem := {
  category : Category;
  title : string;
  description : string;
  priority : Priority
}.

(** ** App.tsx: the rule engine *)

Module Rules.
Import JS.
Local Open Scope float_scope.

(** [weeklyData.reduce((sum, d) => sum + f(d), 0)] *)
Definition reduce_sum {A : Type} (f : A -> number) (l : list A) : number :=
  fold_left (fun sum d => sum + f d) l 0.

Definition unbalanced_nutrition : AdviceItem := {|
  category := Diet;
  title := "營養比例失衡";
  description := "建議採用「健康餐盤法」：1/2 蔬菜、1/4 蛋白質、1/4 澱粉。";
  priority := High |}.

Definition excess_sugary_drinks : AdviceItem := {|
  category := Diet;
  title := "含糖飲料攝取過多";
  description := "提醒每週至少 3 天不喝含糖飲料，多喝水。";
  priority := Medium |}.

Definition avgVeg (weeklyData : list DietData) : number :=
  reduce_sum vegRatio weeklyData / length_of weeklyData.

Definition avgProtein (weeklyData : list DietData) : number :=
  reduce_sum proteinRatio weeklyData / length_of weeklyData.

Definition avgSugary (weeklyData : list DietData) : number :=
  let totalSugary := reduce_sum sugaryDrinksCount weeklyData in
  totalSugary / length_of weeklyData.

Definition analyzeDiet (weeklyData : list DietData) : list AdviceItem :=
  let advice := [] in
  if Nat.eqb (List.length weeklyData) 0 then advice else
  let advice :=
    if (avgVeg weeklyData <? 0.5) || (avgProtein weeklyData <? 0.25)
    then advice ++ [unbalanced_nutrition] else advice in
  let advice :=
    if 0.57 <? avgSugary weeklyData
    then advice ++ [excess_sugary_drinks] else advice in
  advice.

Definition avgSteps (weeklyData : list ExerciseData) : number :=
  reduce_sum dailySteps weeklyData / length_of weeklyData.

Definition totalModMin (weeklyData : list ExerciseData) : number :=
  reduce_sum moderateExerciseMinutes weeklyData.

Definition avgSitting (weeklyData : list ExerciseData) : number :=
  reduce_sum totalSittingMinutes weeklyData / length_of weeklyData.

Definition insufficient_activity (avg : number) : AdviceItem := {|
  category := Exercise;
  title := "活動量不足";
  description := ("目前平均步數 " ++ Number_toString (Math_round avg)
                  ++ " 步。建議每日目標：8,000–10,000 步。")%string;
  priority := Medium |}.

Definition insufficient_moderate_exercise : AdviceItem := {|
  category := Exercise;
  title := "中等強度運動不足";
  description := "每週建議至少 3 次，共 180 分鐘的中等強度運動。";
  priority := High |}.

Definition excessive_sitting : AdviceItem := {|
  category := Exercise;
  title := "久坐時間過長";
  description := "建議每久坐 50 分鐘後，起身活動 5 分鐘。";
  priority := Low |}.

Definition analyzeExercise (weeklyData : list ExerciseData) : list AdviceItem :=
  let advice := [] in
  if Nat.eqb (List.length weeklyData) 0 then advice else
  let advice :=
    if avgSteps weeklyData <? 8000
    then advice ++ [insufficient_activity (avgSteps weeklyData)] else advice in
  let advice :=
    if totalModMin weeklyData <? 180
    then advice ++ [insufficient_moderate_exercise] else advice in
  let advice :=
    if 480 <? avgSitting weeklyData
    then advice ++ [excessive_sitting] else advice in
  advice.

(** The predicate of [weeklyData.filter] in [analyzeSleep]:
    [(hour >= 0 && hour < 5) || (hour === 23 && parseInt(minute) > 30)],
    where a comparison with NaN is false. *)
Definition isLateNight (d : SleepData) : bool :=
  let parts := split ":" (bedTime d) in
  let hour := Number (hd EmptyString parts) in
  match hour with
  | None => false
  | Some hour =>
      ((0 <=? hour)%Z && (hour <? 5)%Z)
      || ((hour =? 23)%Z
          && match parseInt (nth_error parts 1) with
             | Some minute => (30 <? minute)%Z
             | None => false
             end)
  end.

Definition lateNights (weeklyData : list SleepData) : nat :=
  List.length (filter isLateNight weeklyData).

Definition avgSleep (weeklyData : list SleepData) : number :=
  reduce_sum sleepDuration weeklyData / length_of weeklyData.

Definition phoneDays (weeklyData : list SleepData) : nat :=
  List.length (filter usedPhoneBeforeBed weeklyData).

Definition frequent_late_nights : AdviceItem := {|
  category := Sleep;
  title := "頻繁熬夜";
  description := "檢測到入睡時間較晚，建議養成規律作息，目標 23:00 前就寢。";
  priority := High |}.

Definition insufficient_sleep_duration (avg : number) : AdviceItem := {|
  category := Sleep;
  title := "睡眠時數不足";
  description := ("平均睡眠僅 " ++ toFixed1 avg
                  ++ " 小時。高中生建議每晚睡足 7.5 - 8.5 小時。")%string;
  priority := High |}.

Definition pre_bed_phone_use : AdviceItem := {|
  category := Sleep;
  title := "睡前使用手機";
  description := "藍光會影響褪黑激素分泌，建議睡前 30 分鐘不要使用手機。";
  priority := Medium |}.

Definition analyzeSleep (weeklyData : list SleepData) : list AdviceItem :=
  let advice := [] in
  if Nat.eqb (List.length weeklyData) 0 then advice else
  let advice :=
    if Nat.ltb 2 (lateNights weeklyData)
    then advice ++ [frequent_late_nights] else advice in
  let advice :=
    if avgSleep weeklyData <? 7.5
    then advice ++ [insufficient_sleep_duration (avgSleep weeklyData)] else advice in
  let advice :=
    if Nat.ltb 3 (phoneDays weeklyData)
    then advice ++ [pre_bed_phone_use] else advice in
  advice.

End Rules.

(** ** types.ts: the derived state *)

Record Badge := {
  badge_id : string;
  badge_name : string;
  badge_description : string;
  icon : string;
  color : string;
  isUnlocked : bool;
  unlockedDate : option string
}.

Record Challenge := {
  challenge_id : string;
  challenge_title : string;
  challenge_description : string;
  target : JS.number;
  current : JS.number;
  unit_ : string;
  isCompleted : bool;
  type_ : Category
}.

Record GamificationState := {
  totalPoints : Z;
  level : Z;
  progressToNextLevel : JS.number;
  badges : list Badge;
  challenges : list Challenge
}.

(** ** services/gamificationLogic.ts *)

Module Gamification.
Import JS.
Local Open Scope float_scope.

(** The body of [diets.forEach], acting on [points]. *)
Definition diet_step (points : Z) (d : DietData) : Z :=
  let points := if (0.3 <=? vegRatio d) && (0.2 <=? proteinRatio d)
                then (points + 20)%Z else points in
  let points := if sugaryDrinksCount d =? 0 then (points + 10)%Z else points in
  let points := if friedFoodCount d =? 0 then (points + 10)%Z else points in
  points.

(** The body of [exercises.forEach]. *)
Definition exercise_step (points : Z) (e : ExerciseData) : Z :=
  let points := if 8000 <=? dailySteps e then (points + 15)%Z else points in
  let points := if 12000 <=? dailySteps e then (points + 10)%Z else points in
  let points := if 30 <=? moderateExerciseMinutes e then (points + 20)%Z else points in
  points.

(** The body of [sleeps.forEach]. *)
Definition sleep_step (points : Z) (s : SleepData) : Z :=
  let points := if (7.0 <=? sleepDuration s) && (sleepDuration s <=? 9.0)
                then (points + 20)%Z else points in
  let points := if negb (usedPhoneBeforeBed s) then (points + 15)%Z else points in
  points.

Definition points_of (diets : list DietData) (exercises : list ExerciseData)
                     (sleeps : list SleepData) : Z :=
  let points := 0%Z in
  let points := fold_left diet_step diets points in
  let points := fold_left exercise_step exercises points in
  let points := fold_left sleep_step sleeps points in
  points.

Definition pointsPerLevel : Z := 200.

(** [Math.floor(points / pointsPerLevel) + 1].  [points] is a non-negative
    integer below 2^53 and the divisor is 200, so the correctly rounded
    quotient has the integer part of the exact one: integer division. *)
Definition level_of (points : Z) : Z := (points / pointsPerLevel + 1)%Z.

(** [Math.floor(((points % pointsPerLevel) / pointsPerLevel) * 100)].  The
    remainder is exact; the division and the multiplication round, and their
    product can fall just below an integer ([0.29 * 100] is
    [28.999999999999996]), so they are kept in binary64. *)
Definition progress_of (points : Z) : number :=
  Math_floor ((of_Z (Z.rem points pointsPerLevel) / of_Z pointsPerLevel) * 100).

(** [new Date(a.date).getTime() - new Date(b.date).getTime()], NaN
    ([None]) as soon as one of the dates is invalid. *)
Definition by_date (a b : SleepData) : option Z :=
  match Date_getTime (sleep_date a), Date_getTime (sleep_date b) with
  | Some ta, Some tb => Some (ta - tb)%Z
  | _, _ => None
  end.

(** The body of [sortedSleeps.forEach], acting on
    [(sleepStreak, maxSleepStreak)]. *)
Definition streak_step (st : nat * nat) (s : SleepData) : nat * nat :=
  let '(sleepStreak, maxSleepStreak) := st in
  if 7 <=? sleepDuration s
  then (S sleepStreak, Nat.max maxSleepStreak (S sleepStreak))
  else (0%nat, maxSleepStreak).

Definition maxSleepStreak_of (sortedSleeps : list SleepData) : nat :=
  snd (fold_left streak_step sortedSleeps (0%nat, 0%nat)).

(** [const badge = badges.find(b => b.id === id); if (badge) badge.isUnlocked = true]:
    the first badge with that id is the one updated. *)
Fixpoint unlock (id : string) (badges : list Badge) : list Badge :=
  match badges with
  | [] => []
  | b :: rest =>
      if String.eqb (badge_id b) id
      then {| badge_id := badge_id b; badge_name := badge_name b;
              badge_description := badge_description b; icon := icon b;
              color := color b; isUnlocked := true;
              unlockedDate := unlockedDate b |} :: rest
      else b :: unlock id rest
  end.

Definition initial_badges (diets : list DietData) (exercises : list ExerciseData)
  : list Badge :=
  [ {| badge_id := "first_step"; badge_name := "初出茅廬";
       badge_description := "紀錄第一筆運動數據";
       icon := "fa-person-walking"; color := "text-blue-400";
       isUnlocked := Nat.ltb 0 (List.length exercises);
       unlockedDate := None |};
    {| badge_id := "step_master"; badge_name := "萬步天王";
       badge_description := "單日步數超過 10,000 步";
       icon := "fa-fire"; color := "text-red-500";
       isUnlocked := existsb (fun e => 10000 <=? dailySteps e) exercises;
       unlockedDate := None |};
    {| badge_id := "sleep_streak"; badge_name := "好眠大師";
       badge_description := "連續 3 天睡眠達標 (7+ 小時)";
       icon := "fa-moon"; color := "text-purple-400";
       isUnlocked := false;
       unlockedDate := None |};
    {| badge_id := "clean_eater"; badge_name := "飲食清流";
       badge_description := "累積 3 天不喝含糖飲料";
       icon := "fa-leaf"; color := "text-green-500";
       isUnlocked :=
         Nat.leb 3 (List.length (filter (fun d => sugaryDrinksCount d =? 0) diets));
       unlockedDate := None |} ].

Definition totalSteps (exercises : list ExerciseData) : number :=
  fold_left (fun acc curr => acc + dailySteps curr) exercises 0.

Definition totalModMins (exercises : list ExerciseData) : number :=
  fold_left (fun acc curr => acc + moderateExerciseMinutes curr) exercises 0.

Definition balancedMeals (diets : list DietData) : nat :=
  List.length (filter (fun d => (0.3 <=? vegRatio d) && (0.2 <=? proteinRatio d)) diets).

Definition challenges_of (diets : list DietData) (exercises : list ExerciseData)
  : list Challenge :=
  [ {| challenge_id := "weekly_steps"; challenge_title := "本週步數挑戰";
       challenge_description := "累積 50,000 步";
       target := 50000; current := totalSteps exercises; unit_ := "步";
       isCompleted := 50000 <=? totalSteps exercises; type_ := Exercise |};
    {| challenge_id := "active_week"; challenge_title := "熱血燃燒";
       challenge_description := "累積 150 分鐘中等強度運動";
       target := 150; current := totalModMins exercises; unit_ := "分鐘";
       isCompleted := 150 <=? totalModMins exercises; type_ := Exercise |};
    {| challenge_id := "balanced_diet"; challenge_title := "營養滿分";
       challenge_description := "攝取 5 餐均衡飲食";
       target := 5; current := of_Z (Z.of_nat (balancedMeals diets)); unit_ := "餐";
       isCompleted := Nat.leb 5 (balancedMeals diets); type_ := Diet |} ].

(** What the function computes once [sortedSleeps], the sorted copy of
    [sleeps], is at hand. *)
Definition state_from (diets : list DietData) (exercises : list ExerciseData)
    (sleeps sortedSleeps : list SleepData) : GamificationState :=
  let points := points_of diets exercises sleeps in
  let badges := initial_badges diets exercises in
  let badges := if Nat.leb 3 (maxSleepStreak_of sortedSleeps)
                then unlock "sleep_streak" badges else badges in
  {| totalPoints := points;
     level := level_of points;
     progressToNextLevel := progress_of points;
     badges := badges;
     challenges := challenges_of diets exercises |}.

Definition sortedSleeps_of (sleeps : list SleepData) : list SleepData :=
  sort by_date sleeps.

Definition calculateGamificationState (diets : list DietData)
    (exercises : list ExerciseData) (sleeps : list SleepData) : GamificationState :=
  state_from diets exercises sleeps (sortedSleeps_of sleeps).

End Gamification.

(** ** The arrays as shared, mutable objects

    [Array.prototype.sort] sorts in place, and the caller's [sleeps] array is
    the very object React keeps as state.  Here the arrays of sleep entries
    live in a heap and the engine receives a reference, so that what the call
    does to the caller's array is visible. *)

Module Shared.
Import JS Gamification.

Definition ref := nat.
Definition heap := list (list SleepData).

Definition read (h : heap) (r : ref) : list SleepData := nth r h [].

Fixpoint write (r : ref) (a : list SleepData) (h : heap) : heap :=
  match h, r with
  | [], _ => []
  | _ :: t, O => a :: t
  | x :: t, S r' => x :: write r' a t
  end.

Definition alloc (a : list SleepData) (h : heap) : ref * heap :=
  (List.length h, h ++ [a]).

(** [[...a]]: a fresh array with the elements of [a]. *)
Definition spread (a : ref) (h : heap) : ref * heap := alloc (read h a) h.

(** [a.sort(compareFn)]: sorts the array itself and returns it. *)
Definition sort_in_place (compareFn : SleepData -> SleepData -> option Z)
    (a : ref) (h : heap) : ref * heap :=
  (a, write a (sort compareFn (read h a)) h).

(** [calculateGamificationState] on a reference to the sleep entries: the
    point loop reads the caller's array, then [[...sleeps].sort(..)] sorts a
    copy. *)
Definition calculateGamificationState (diets : list DietData)
    (exercises : list ExerciseData) (sleeps : ref) (h : heap)
  : GamificationState * heap :=
  let entries := read h sleeps in
  let (copy, h1) := spread sleeps h in
  let (sortedSleeps, h2) := sort_in_place by_date copy h1 in
  (state_from diets exercises entries (read h2 sortedSleeps), h2).

(** [analyzeSleep] only reads its array ([filter] and [reduce] build new
    values). *)
Definition analyzeSleep (weeklyData : ref) (h : heap) : list AdviceItem * heap :=
  (Rules.analyzeSleep (read h weeklyData), h).

End Shared.

(** ** App.tsx: what the component does with the engines and the forms *)

Module App.
Import JS Rules.
Local Open Scope float_scope.

(** The effect that runs whenever the data change:
    [setAdviceList([...dietAdvice, ...exerciseAdvice, ...sleepAdvice])]. *)
Definition adviceList_of (dietData : list DietData) (exerciseData : list ExerciseData)
    (sleepData : list SleepData) : list AdviceItem :=
  let dietAdvice := analyzeDiet dietData in
  let exerciseAdvice := analyzeExercise exerciseData in
  let sleepAdvice := analyzeSleep sleepData in
  dietAdvice ++ exerciseAdvice ++ sleepAdvice.

(** [handleDietSubmit], [handleExerciseSubmit] and [handleSleepSubmit]:
    [prev => [...prev, data]]. *)
Definition handleSubmit_append {A : Type} (data : A) (prev : list A) : list A :=
  prev ++ [data].

(** The truth value of a number: [0], [-0] and NaN are falsy. *)
Definition truthy (x : number) : bool := negb (x =? 0) && (x =? x).

(** [value || fallback] on a field that may be [undefined]. *)
Definition or_else (value : option number) (fallback : number) : number :=
  match value with
  | Some v => if truthy v then v else fallback
  | None => fallback
  end.

(** The state of [DietInputView], a [Partial<DietData>]: the date is there
    from the first render and is only ever replaced by a text, the other
    fields may be [undefined]. *)
Record DietFormData := {
  form_date : string;
  form_calorieIntake : option number;
  form_vegRatio : option number;
  form_proteinRatio : option number;
  form_starchRatio : option number;
  form_sugaryDrinksCount : option number;
  form_friedFoodCount : option number
}.

(** [handleSubmit] of [DietInputView]: the entry handed to [onSave], or
    [None] when the form only raises the alert.  [id] is the text of
    [Math.random()]. *)
Definition handleSubmit (id : string) (formData : DietFormData) : option DietData :=
  match form_calorieIntake formData with
  | Some calories =>
      Some {| diet_id := id;
              diet_date := form_date formData;
              calorieIntake := calories;
              vegRatio := or_else (form_vegRatio formData) 0;
              proteinRatio := or_else (form_proteinRatio formData) 0;
              starchRatio := or_else (form_starchRatio formData) 0;
              sugaryDrinksCount := or_else (form_sugaryDrinksCount formData) 0;
              friedFoodCount := or_else (form_friedFoodCount formData) 0;
              imageUrl := None |}
  | None => None
  end.

(** [new Date(`2000-01-01T${t}`).getTime()] for a time of day [HH:mm], in
    milliseconds from the local midnight of that day ([None] for NaN, an
    invalid date).  The hour goes from 00 to 23, or is 24 with minute 00, the
    end of the day.  Times with seconds or a zone, which the time picker does
    not produce, are not reproduced and are read as invalid. *)
Definition clock_ms (t : string) : option Z :=
  if negb (Nat.eqb (String.length t) 5) then None else
  match all_digits (substring 0 2 t), all_digits (substring 3 2 t) with
  | Some hh, Some mm =>
      if (String.eqb (substring 2 1 t) ":"
          && (((hh <=? 23)%Z && (mm <=? 59)%Z) || ((hh =? 24)%Z && (mm =? 0)%Z)))%bool
      then Some ((hh * 60 + mm) * 60000)%Z
      else None
  | _, _ => None
  end.

(** [calculateDuration] of [SleepInputView].  Both dates are on the same
    local day, so the offset of the zone cancels in the difference;
    [end.setDate(end.getDate() + 1)] moves the end by one day of 24 hours
    (no clock change falls on the first days of January 2000).  A comparison
    with an invalid date is false and the difference is then NaN. *)
Definition calculateDuration (bedTime wakeTime : string) : number :=
  match clock_ms bedTime, clock_ms wakeTime with
  | Some start, Some end_ =>
      let end_ := if (end_ <? start)%Z then (end_ + 86400000)%Z else end_ in
      let diff := of_Z (end_ - start) / 1000 / 60 / 60 in
      diff
  | _, _ => nan
  end.

(** The entry [SleepInputView] hands to [onSave]:
    [{id, sleepDuration: calculateDuration(), ...data}]. *)
Definition saveSleep (id date bedTime wakeTime : string) (usedPhone : bool) : SleepData :=
  {| sleep_id := id; sleep_date := date; bedTime := bedTime; wakeTime := wakeTime;
     sleepDuration := calculateDuration bedTime wakeTime;
     usedPhoneBeforeBed := usedPhone |}.

(** [generateMockData].  The clock and the random numbers are inputs:
    [date_at i] is the date text computed for day [i] of the week,
    [random k] is what the [k]-th call of [Math.random()] returns, and
    [toString] is [Number::toString], which gives the ids their text. *)
Section MockData.
Variable date_at : nat -> string.
Variable random : nat -> number.
Variable toString : number -> string.

Definition mock_dates : list (nat * string) :=
  map (fun i => (i, date_at i)) (seq 0 7).

Definition mock_diets : list DietData :=
  map (fun '(i, date) =>
         let k := (7 * i)%nat in
         {| diet_id := toString (random k);
            diet_date := date;
            calorieIntake := Math_floor (random (k + 1) * 600 + 400);
            vegRatio := random (k + 2) * 0.4 + 0.1;
            proteinRatio := random (k + 3) * 0.3 + 0.1;
            starchRatio := random (k + 4) * 0.4 + 0.2;
            sugaryDrinksCount := if 0.7 <? random (k + 5) then 1 else 0;
            friedFoodCount := if 0.8 <? random (k + 6) then 1 else 0;
            imageUrl := None |})
      mock_dates.

Definition mock_exercises : list ExerciseData :=
  map (fun '(i, date) =>
         let k := (49 + 4 * i)%nat in
         {| exercise_id := toString (random k);
            exercise_date := date;
            dailySteps := Math_floor (random (k + 1) * 5000 + 4000);
            moderateExerciseMinutes := Math_floor (random (k + 2) * 40);
            totalSittingMinutes := Math_floor (random (k + 3) * 100 + 300) |})
      mock_dates.

Definition mock_sleeps : list SleepData :=
  map (fun '(i, date) =>
         let k := (77 + 3 * i)%nat in
         {| sleep_id := toString (random k);
            sleep_date := date;
            bedTime := "23:45";
            wakeTime := "06:30";
            sleepDuration := 6.5 + random (k + 1);
            usedPhoneBeforeBed := 0.5 <? random (k + 2) |})
      mock_dates.

Definition generateMockData : list DietData * list ExerciseData * list SleepData :=
  (mock_diets, mock_exercises, mock_sleeps).
End MockData.

End App.

(** ** types.ts and App.tsx: the dashboard layout *)

Module Layout.
Import JS.
Local Open Scope float_scope.

Inductive WidgetType :=
| STEPS_CHART | NUTRITION_PIE | SLEEP_BAR | ADVICE_LIST | GAMIFICATION
| DAILY_SUMMARY | AI_REPORT.

(** The text of a widget type, as a template literal prints it. *)
Definition type_text (t : WidgetType) : string :=
  match t with
  | STEPS_CHART => "STEPS_CHART"
  | NUTRITION_PIE => "NUTRITION_PIE"
  | SLEEP_BAR => "SLEEP_BAR"
  | ADVICE_LIST => "ADVICE_LIST"
  | GAMIFICATION => "GAMIFICATION"
  | DAILY_SUMMARY => "DAILY_SUMMARY"
  | AI_REPORT => "AI_REPORT"
  end.

Record WidgetConfig := {
  id : string;
  type : WidgetType;
  title : string;
  x : number;
  y : number;
  w : number;
  h : number;
  minW : option number;
  minH : option number
}.

Record DashboardLayout := {
  layout_id : string;
  name : string;
  widgets : list WidgetConfig
}.

Definition WIDGET_TITLES (t : WidgetType) : string :=
  match t with
  | STEPS_CHART => "步數趨勢"
  | NUTRITION_PIE => "營養比例"
  | SLEEP_BAR => "睡眠時數"
  | ADVICE_LIST => "健康建議"
  | GAMIFICATION => "成就與挑戰"
  | DAILY_SUMMARY => "今日概況"
  | AI_REPORT => "AI 週報摘要"
  end.

Definition widget (id : string) (type : WidgetType) (title : string)
    (x y w h : number) : WidgetConfig :=
  {| id := id; type := type; title := title; x := x; y := y; w := w; h := h;
     minW := None; minH := None |}.

Definition DEFAULT_LAYOUT : DashboardLayout := {|
  layout_id := "default";
  name := "我的健康儀表板";
  widgets :=
    [ widget "summary" DAILY_SUMMARY "今日概況" 0 0 4 2;
      widget "gamification" GAMIFICATION "成就與挑戰" 4 0 8 2;
      widget "steps" STEPS_CHART "步數趨勢" 0 2 6 3;
      widget "nutrition" NUTRITION_PIE "營養比例" 6 2 6 3;
      widget "sleep" SLEEP_BAR "睡眠時數" 0 5 6 3;
      widget "advice" ADVICE_LIST "健康建議" 6 5 6 3 ] |}.

(** [handleAddWidget]; [now] is [Date.now()], a count of milliseconds that
    the template literal prints in decimal digits. *)
Definition handleAddWidget (now : Z) (type : WidgetType) (prev : DashboardLayout)
  : DashboardLayout :=
  let newWidget :=
    {| id := (type_text type ++ "_" ++ digits_of now)%string;
       type := type;
       title := WIDGET_TITLES type;
       x := 0;
       y := infinity;
       w := 6;
       h := 3;
       minW := None; minH := None |} in
  {| layout_id := layout_id prev; name := name prev;
     widgets := widgets prev ++ [newWidget] |}.

(** [handleRemoveWidget]. *)
Definition handleRemoveWidget (id' : string) (prev : DashboardLayout) : DashboardLayout :=
  {| layout_id := layout_id prev; name := name prev;
     widgets := filter (fun w => negb (String.eqb (id w) id')) (widgets prev) |}.

End Layout.

(** ** components/Dashboard.tsx: the grid *)

Module Grid.
Import JS.
Local Open Scope float_scope.

(** An item of react-grid-layout's [Layout]. *)
Record Item := {
  i : string;
  x : number;
  y : number;
  w : number;
  h : number;
  minW : option number;
  minH : option number
}.

(** [handleLayoutChange]: the layout handed to [onLayoutChange].  Each
    widget takes the place of the first item that carries its id. *)
Definition handleLayoutChange (layout : Layout.DashboardLayout)
    (currentLayout : list Item) : Layout.DashboardLayout :=
  let updatedWidgets :=
    map (fun widget =>
           match find (fun item => String.eqb (i item) (Layout.id widget)) currentLayout with
           | Some layoutItem =>
               {| Layout.id := Layout.id widget;
                  Layout.type := Layout.type widget;
                  Layout.title := Layout.title widget;
                  Layout.x := x layoutItem;
                  Layout.y := y layoutItem;
                  Layout.w := w layoutItem;
                  Layout.h := h layoutItem;
                  Layout.minW := Layout.minW widget;
                  Layout.minH := Layout.minH widget |}
           | None => widget
           end)
        (Layout.widgets layout) in
  {| Layout.layout_id := Layout.layout_id layout;
     Layout.name := Layout.name layout;
     Layout.widgets := updatedWidgets |}.

(** [gridLayouts.lg]: the items the grid is given. *)
Definition gridLayouts_lg (layout : Layout.DashboardLayout) : list Item :=
  map (fun w' =>
         {| i := Layout.id w';
            x := Layout.x w';
            y := Layout.y w';
            w := Layout.w w';
            h := Layout.h w';
            minW := Some (App.or_else (Layout.minW w') 2);
            minH := Some (App.or_else (Layout.minH w') 2) |})
      (Layout.widgets layout).

End Grid.

(** ** components/AnalysisCharts.tsx: the data of the charts *)

Module Charts.
Import JS.
Local Open Scope float_scope.

(** [data.slice(-7)]: the last seven elements, all of them when there are
    fewer. *)
Definition slice_last7 {A : Type} (data : list A) : list A :=
  skipn (List.length data - 7) data.

(** [text.substring(5)]. *)
Definition substring5 (text : string) : string :=
  substring 5 (String.length text - 5) text.

Record StepsPoint := { steps_name : string; steps : number }.
Record SleepPoint := { hours_name : string; hours : number }.
Record Slice := { slice_name : string; value : number }.

(** [chartData] of [StepsChart]. *)
Definition StepsChart_data (data : list ExerciseData) : list StepsPoint :=
  map (fun d => {| steps_name := substring5 (exercise_date d); steps := dailySteps d |})
      (slice_last7 data).

(** [chartData] of [SleepBarChart]. *)
Definition SleepBarChart_data (data : list SleepData) : list SleepPoint :=
  map (fun d => {| hours_name := substring5 (sleep_date d); hours := sleepDuration d |})
      (slice_last7 data).

(** [data.length || 1]. *)
Definition total_of {A : Type} (data : list A) : number :=
  if Nat.eqb (List.length data) 0 then 1 else length_of data.

(** [chartData] of [NutritionPieChart]. *)
Definition NutritionPieChart_data (data : list DietData) : list Slice :=
  let total := total_of data in
  let avgVeg := fold_left (fun acc curr => acc + vegRatio curr) data 0 / total in
  let avgProtein := fold_left (fun acc curr => acc + proteinRatio curr) data 0 / total in
  let avgStarch := fold_left (fun acc curr => acc + starchRatio curr) data 0 / total in
  let sum := let s := avgVeg + avgProtein + avgStarch in
             if App.truthy s then s else 1 in
  [ {| slice_name := "蔬菜"; value := avgVeg / sum |};
    {| slice_name := "蛋白質"; value := avgProtein / sum |};
    {| slice_name := "澱粉"; value := avgStarch / sum |} ].

End Charts.

(** ** services/geminiService.ts: the weekly report, and its caller in App.tsx

    The service is outside the program: how [ai.models.generateContent] ends
    is an input of the model.  The request (the prompt with the data) is not
    modelled; it only bears on what the service answers.  [analyzeFoodImage]
    is left out: it hands on whatever [JSON.parse] returns, unchecked, and
    the form is then merged with a value of any shape. *)

Module Gemini.
Import JS.

(** How a call of the service ends: with a response, whose [text] may be
    [undefined], or with an exception. *)
Inductive Call := Responds (text : option string) | Throws.

(** How an [async] function ends. *)
Inductive Promise (A : Type) := Resolved (value : A) | Rejected.
Arguments Resolved {A} value.
Arguments Rejected {A}.

(** [getClient]: throws when [process.env.API_KEY] is [undefined] or empty. *)
Definition getClient (API_KEY : option string) : Promise unit :=
  match API_KEY with
  | None => Rejected
  | Some EmptyString => Rejected
  | Some _ => Resolved tt
  end.

(** [generateWeeklyReportAI]: a failure of the call is answered by a fixed
    text, a missing text by another; only [getClient], outside the [try],
    makes it reject. *)
Definition generateWeeklyReportAI (API_KEY : option string) (call : Call)
  : Promise string :=
  match getClient API_KEY with
  | Rejected => Rejected
  | Resolved _ =>
      match call with
      | Responds (Some (String c t)) => Resolved (String c t)
      | Responds _ => Resolved "無法生成報告，請稍後再試。"%string
      | Throws => Resolved "生成報告時發生錯誤。"%string
      end
  end.

(** [handleGenerateReport] of [App]: the summary and the flag
    [isGeneratingReport] it leaves. *)
Definition handleGenerateReport (API_KEY : option string) (call : Call) : string * bool :=
  let isGeneratingReport := true in
  let aiReportSummary :=
    match generateWeeklyReportAI API_KEY call with
    | Resolved summary => summary
    | Rejected => "報告生成失敗，請檢查網路連線。"%string
    end in
  let isGeneratingReport := false in
  (aiReportSummary, isGeneratingReport).

End Gemini.

(** * The vocabulary of the properties *)

(** ** Sample entries *)

Module Samples.
Import JS.
Local Open Scope float_scope.

Definition meal (veg protein sugary fried : number) : DietData := {|
  diet_id := "d"; diet_date := "2024-01-01"; calorieIntake := 600;
  vegRatio := veg; proteinRatio := protein; starchRatio := 0.25;
  sugaryDrinksCount := sugary; friedFoodCount := fried; imageUrl := None |}.

Definition workout (steps minutes : number) : ExerciseData := {|
  exercise_id := "e"; exercise_date := "2024-01-01"; dailySteps := steps;
  moderateExerciseMinutes := minutes; totalSittingMinutes := 300 |}.

Definition night (date bed : string) (hours : number) (phone : bool) : SleepData := {|
  sleep_id := "s"; sleep_date := date; bedTime := bed; wakeTime := "06:30";
  sleepDuration := hours; usedPhoneBeforeBed := phone |}.

(** [n] days out of [k] with one sugary drink. *)
Definition drinks (n k : nat) : list DietData :=
  repeat (meal 0.5 0.25 1 0) n ++ repeat (meal 0.5 0.25 0 0) (k - n).

End Samples.

(** ** Notions used to state the properties *)

Module Notions.
Import JS Rules Gamification.

(** A rule that fires appends its item. *)
Definition emit (fires : bool) (a : AdviceItem) : list AdviceItem :=
  if fires then [a] else [].

(** The hour and the minute as [analyzeSleep] reads them off a bed time. *)
Definition hour_of (t : string) : option Z := Number (hd EmptyString (split ":" t)).
Definition minute_of (t : string) : option Z := parseInt (nth_error (split ":" t) 1).

(** A late night in the words of the rule: the hour is in [0,5), or it is 23
    and the minute is above 30. *)
Definition late_bed_time (t : string) : Prop :=
  exists hour, hour_of t = Some hour /\
    ((0 <= hour < 5)%Z \/
     (hour = 23%Z /\ exists minute, minute_of t = Some minute /\ (30 < minute)%Z)).

(** [Subseq l rules]: [l] keeps some of [rules], in the order of [rules]. *)
Inductive Subseq {A : Type} : list A -> list A -> Prop :=
| Subseq_nil : Subseq [] []
| Subseq_skip (a : A) (l rules : list A) : Subseq l rules -> Subseq l (a :: rules)
| Subseq_take (a : A) (l rules : list A) : Subseq l rules -> Subseq (a :: l) (a :: rules).

Create HintDb rules.
#[export] Hint Constructors Subseq Forall : rules.

(** What one entry adds is what it adds to zero. *)
Definition additive {A : Type} (step : Z -> A -> Z) : Prop :=
  forall points x, step points x = (points + step 0 x)%Z.

(** An entry adds a non-negative multiple of 5. *)
Definition rewarding {A : Type} (step : Z -> A -> Z) : Prop :=
  forall x, (0 <= step 0 x)%Z /\ (step 0 x mod 5 = 0)%Z.

(** The time stamp [new Date(s.date).getTime()] of an entry. *)
Definition time_of (s : SleepData) : option Z := Date_getTime (sleep_date s).

Definition ascending (a b : SleepData) : Prop :=
  match time_of a, time_of b with
  | Some ta, Some tb => (ta <= tb)%Z
  | _, _ => False
  end.

Definition dated (s : SleepData) : Prop := time_of s <> None.

(** A night that counts for the streak. *)
Definition good (s : SleepData) : bool := (7 <=? sleepDuration s)%float.

(** [n] good nights in a row, by position in the list. *)
Definition has_run (n : nat) (l : list SleepData) : Prop :=
  exists pre run post,
    l = pre ++ run ++ post /\ (n <= List.length run)%nat /\ Forall (fun s => good s = true) run.

(** Good nights at the head of the list, continuing a streak of [c]. *)
Definition continues (n c : nat) (l : list SleepData) : Prop :=
  exists run post,
    l = run ++ post /\ run <> [] /\ Forall (fun s => good s = true) run
    /\ (n <= c + List.length run)%nat.

(** The [isUnlocked] flag of the badge with the given id. *)
Definition unlocked (id : string) (st : GamificationState) : bool :=
  match find (fun b => String.eqb (badge_id b) id) (badges st) with
  | Some b => isUnlocked b
  | None => false
  end.

(** Seven nights in date order with the given hours of sleep. *)
Definition week (hours : list number) : list SleepData :=
  map (fun '(date, h) => Samples.night date "22:30" h false)
      (combine ["2024-03-04"; "2024-03-05"; "2024-03-06"; "2024-03-07";
                "2024-03-08"; "2024-03-09"; "2024-03-10"]%string hours).

(** Three good nights weeks apart, given out of order. *)
Definition scattered : list SleepData :=
  [Samples.night "2024-03-20" "22:30" 8%float false;
   Samples.night "2024-01-02" "22:30" 7%float false;
   Samples.night "2024-02-11" "22:30" 9%float false].

(** Two advice items with different titles are different. *)
Ltac by_title :=
  let E := fresh "E" in
  intro E; apply (f_equal title) in E; cbn in E; discriminate E.

Ltac by_cases_on_rules :=
  repeat match goal with
  | |- context [if ?c then _ else _] => destruct c
  end; cbn; try lia; try (split; [lia | reflexivity]).


End Notions.

(** ** Notions used to state further properties *)

Module Measures.
Import JS Rules Gamification.

(** [Number.isNaN]: NaN is the one number that differs from itself. *)
Definition isNaN (x : number) : bool := negb (PrimFloat.eqb x x).

(** The [isCompleted] flag of the challenge with the given id. *)
Definition completed (id : string) (st : GamificationState) : bool :=
  match find (fun c => String.eqb (challenge_id c) id) (challenges st) with
  | Some c => isCompleted c
  | None => false
  end.

(** The integer part of a finite number. *)
Definition integral_part (x : number) : Z :=
  match Prim2SF x with
  | S754_finite s m e => Z.shiftl (signed s m) e
  | _ => 0%Z
  end.

(** The points read back from a level and a progress: the multiple of 5
    among the two remainders that give this progress. *)
Definition points_from (level : Z) (progress : number) : Z :=
  let k := integral_part progress in
  (200 * (level - 1) + (if (2 * k) mod 5 =? 0 then 2 * k else 2 * k + 1))%Z.

(** The place of a category in the advice list. *)
Definition rank (c : Category) : nat :=
  match c with Diet => 0 | Exercise => 1 | Sleep => 2 end.

(** The minutes from a bed time to a wake time, both in milliseconds from
    midnight, the wake time being on the next day when it is the earlier. *)
Definition minutes_asleep (start end_ : Z) : Z :=
  ((if end_ <? start then end_ + 86400000 - start else end_ - start) / 60000)%Z.

(** [calculateDuration] on a span of whole minutes. *)
Definition hours_of_minutes (minutes : Z) : number :=
  (of_Z (minutes * 60000) / 1000 / 60 / 60)%float.

(** What the scoring reads off a night of that many minutes, against the
    minutes themselves: the duration is between 0 and 24, it earns the points
    from 420 to 540 minutes and it counts for the streak from 420 minutes. *)
Definition duration_checked (minutes : Z) : bool :=
  let x := hours_of_minutes minutes in
  ((0 <=? x) && (x <=? 24))%float
  && Bool.eqb ((7.0 <=? x) && (x <=? 9.0))%float ((420 <=? minutes) && (minutes <=? 540))%Z
  && Bool.eqb (7 <=? x)%float (420 <=? minutes)%Z.

(** The exact value of a finite number; infinities and NaN have none. *)
Definition exact (x : number) : option Q :=
  match Prim2SF x with
  | S754_zero _ => Some 0%Q
  | S754_finite s m e =>
      Some (if (0 <=? e)%Z then inject_Z (signed s m * 2 ^ e)
            else (inject_Z (signed s m) / inject_Z (2 ^ (- e)))%Q)
  | _ => None
  end.

(** The mean of a field over the entries, in exact arithmetic. *)
Definition exact_mean {A : Type} (f : A -> number) (l : list A) : option Q :=
  match fold_left (fun sum d => match sum, exact (f d) with
                                | Some a, Some v => Some (a + v)%Q
                                | _, _ => None
                                end) l (Some 0%Q) with
  | Some sum => Some (sum / inject_Z (Z.of_nat (List.length l)))%Q
  | None => None
  end.

(** The entries recorded for the time stamp [t]. *)
Definition same_time (t : Z) (s : SleepData) : bool :=
  match Date_getTime (sleep_date s) with
  | Some u => (u =? t)%Z
  | None => false
  end.

(** What the diet form saves for a ratio or a count: the number entered when
    it is a number other than zero, and 0 when the field is [undefined], NaN
    or zero. *)
Definition entered_or_zero (field : option number) : number :=
  match field with
  | Some v => if isNaN v || PrimFloat.eqb v 0 then 0%float else v
  | None => 0%float
  end.

(** The id [handleAddWidget] gives a widget of that type at that time. *)
Definition new_widget_id (type : Layout.WidgetType) (now : Z) : string :=
  (Layout.type_text type ++ "_" ++ digits_of now)%string.

(** The grid item that [gridLayouts] makes of a widget. *)
Definition item_of (w : Layout.WidgetConfig) : Grid.Item :=
  {| Grid.i := Layout.id w; Grid.x := Layout.x w; Grid.y := Layout.y w;
     Grid.w := Layout.w w; Grid.h := Layout.h w;
     Grid.minW := Some (App.or_else (Layout.minW w) 2%float);
     Grid.minH := Some (App.or_else (Layout.minH w) 2%float) |}.

(** A widget moved and resized to a grid item. *)
Definition placed_at (item : Grid.Item) (w : Layout.WidgetConfig) : Layout.WidgetConfig :=
  {| Layout.id := Layout.id w; Layout.type := Layout.type w;
     Layout.title := Layout.title w;
     Layout.x := Grid.x item; Layout.y := Grid.y item;
     Layout.w := Grid.w item; Layout.h := Grid.h item;
     Layout.minW := Layout.minW w; Layout.minH := Layout.minH w |}.

(** What [handleLayoutChange] does to one widget. *)
Definition moved (currentLayout : list Grid.Item) (w : Layout.WidgetConfig)
  : Layout.WidgetConfig :=
  match find (fun item => String.eqb (Grid.i item) (Layout.id w)) currentLayout with
  | Some layoutItem => placed_at layoutItem w
  | None => w
  end.

End Measures.

(** * Properties *)

(** ** The order of binary64 numbers

    [<?] and [<=?] are specified on [spec_float] by [SFcompare]; a NaN
    compares with nothing. *)

Module FloatOrder.

Lemma SFcompare_antisym (x y : spec_float) :
  SFcompare y x = option_map CompOpp (SFcompare x y).
Proof.
  destruct x as [sx|sx| |sx mx ex], y as [sy|sy| |sy my ey]; simpl;
    try reflexivity; try (destruct sx; reflexivity); try (destruct sy; reflexivity);
    try (destruct sx, sy; reflexivity).
  change (PosDef.Pos.compare_cont Eq my mx) with (Pos.compare my mx).
  change (PosDef.Pos.compare_cont Eq mx my) with (Pos.compare mx my).
  rewrite (Z.compare_antisym ex ey), (Pos.compare_antisym mx my).
  destruct sx, sy; simpl; try reflexivity;
    destruct (ex ?= ey)%Z; simpl; try reflexivity;
    destruct (mx ?= my)%positive; reflexivity.
Qed.

Lemma leb_ltb_false (x y : float) :
  PrimFloat.leb x y = true -> PrimFloat.ltb y x = false.
Proof.
  rewrite FloatAxioms.leb_spec, FloatAxioms.ltb_spec. unfold SFleb, SFltb.
  rewrite (SFcompare_antisym (Prim2SF x) (Prim2SF y)).
  destruct (SFcompare (Prim2SF x) (Prim2SF y)) as [[ | | ]|]; simpl; congruence.
Qed.

Lemma ltb_leb_false (x y : float) :
  PrimFloat.ltb x y = true -> PrimFloat.leb y x = false.
Proof.
  rewrite FloatAxioms.leb_spec, FloatAxioms.ltb_spec. unfold SFleb, SFltb.
  rewrite (SFcompare_antisym (Prim2SF x) (Prim2SF y)).
  destruct (SFcompare (Prim2SF x) (Prim2SF y)) as [[ | | ]|]; simpl; congruence.
Qed.

Lemma SFleb_trans (x y z : spec_float) :
  SFleb x y = true -> SFleb y z = true -> SFleb x z = true.
Proof.
  unfold SFleb.
  destruct x as [sx|sx| |sx mx ex], y as [sy|sy| |sy my ey], z as [sz|sz| |sz mz ez];
    cbn [SFcompare];
    try discriminate; try reflexivity;
    try (destruct sx; try discriminate; try reflexivity);
    try (destruct sy; try discriminate; try reflexivity);
    try (destruct sz; try discriminate; try reflexivity);
    repeat match goal with
    | |- context [(?a ?= ?b)%Z] => destruct (Z.compare_spec a b)
    | |- context [PosDef.Pos.compare_cont Eq ?a ?b] =>
        change (PosDef.Pos.compare_cont Eq a b) with (Pos.compare a b);
        destruct (Pos.compare_spec a b)
    end; cbn [CompOpp]; try discriminate; try reflexivity; intros; exfalso; lia.
Qed.

Lemma leb_trans (x y z : float) :
  PrimFloat.leb x y = true -> PrimFloat.leb y z = true -> PrimFloat.leb x z = true.
Proof. rewrite !FloatAxioms.leb_spec. apply SFleb_trans. Qed.

End FloatOrder.

(** ** The rule engine *)

Module RulesFacts.
Import JS Rules FloatOrder Notions.
Local Open Scope float_scope.

Lemma analyzeDiet_rules (l : list DietData) :
  analyzeDiet l =
  if Nat.eqb (List.length l) 0 then [] else
    emit ((avgVeg l <? 0.5) || (avgProtein l <? 0.25)) unbalanced_nutrition
    ++ emit (0.57 <? avgSugary l) excess_sugary_drinks.
Proof.
  unfold analyzeDiet, emit.
  destruct (Nat.eqb (List.length l) 0); [reflexivity|].
  destruct ((avgVeg l <? 0.5) || (avgProtein l <? 0.25)), (0.57 <? avgSugary l);
    reflexivity.
Qed.

Lemma analyzeExercise_rules (l : list ExerciseData) :
  analyzeExercise l =
  if Nat.eqb (List.length l) 0 then [] else
    emit (avgSteps l <? 8000) (insufficient_activity (avgSteps l))
    ++ emit (totalModMin l <? 180) insufficient_moderate_exercise
    ++ emit (480 <? avgSitting l) excessive_sitting.
Proof.
  unfold analyzeExercise, emit.
  destruct (Nat.eqb (List.length l) 0); [reflexivity|].
  destruct (avgSteps l <? 8000), (totalModMin l <? 180), (480 <? avgSitting l);
    reflexivity.
Qed.

Lemma analyzeSleep_rules (l : list SleepData) :
  analyzeSleep l =
  if Nat.eqb (List.length l) 0 then [] else
    emit (Nat.ltb 2 (lateNights l)) frequent_late_nights
    ++ emit (avgSleep l <? 7.5) (insufficient_sleep_duration (avgSleep l))
    ++ emit (Nat.ltb 3 (phoneDays l)) pre_bed_phone_use.
Proof.
  unfold analyzeSleep, emit.
  destruct (Nat.eqb (List.length l) 0); [reflexivity|].
  destruct (Nat.ltb 2 (lateNights l)), (avgSleep l <? 7.5), (Nat.ltb 3 (phoneDays l));
    reflexivity.
Qed.

(** C2, on the averages as the code computes them (the binary64 sum of the
    entries from left to right, divided by the length): a non-empty week of
    meals whose average vegetable ratio is at least 0.5, whose average
    protein ratio is at least 0.25 and whose average number of sugary drinks
    is at most 0.57 gets no diet advice. *)
Theorem analyzeDiet_balanced_week (l : list DietData) :
  l <> [] ->
  (0.5 <=? avgVeg l) = true ->
  (0.25 <=? avgProtein l) = true ->
  (avgSugary l <=? 0.57) = true ->
  analyzeDiet l = [].
Proof.
  intros _ Hveg Hprot Hsug.
  rewrite analyzeDiet_rules.
  rewrite (leb_ltb_false _ _ Hveg), (leb_ltb_false _ _ Hprot), (leb_ltb_false _ _ Hsug).
  destruct (Nat.eqb (List.length l) 0); reflexivity.
Qed.

Lemma analyzeDiet_balanced_week_witness :
  analyzeDiet [Samples.meal 0.5 0.25 0 0; Samples.meal 0.5 0.25 1 1] = [].
Proof.
  apply analyzeDiet_balanced_week;
    [discriminate | vm_compute; reflexivity ..].
Defined.

(** On the exact averages C2 fails.  The vegetable ratios 0.2, 0.7, 0.9, 0.2
    have the exact mean 1/2, the protein ratios the exact mean 1/4 and there
    are no sugary drinks; summed in this order in binary64 the vegetable
    ratios give an average just under 0.5, and the list gets the advice on
    unbalanced nutrition.  (In the order 0.9, 0.7, 0.2, 0.2 it gets none.) *)
Lemma analyzeDiet_exact_mean_counterexample :
  let l := [Samples.meal 0.2 0.25 0 0; Samples.meal 0.7 0.25 0 0;
            Samples.meal 0.9 0.25 0 0; Samples.meal 0.2 0.25 0 0] in
  l <> []
  /\ option_map (Qle_bool (1 # 2)) (Measures.exact_mean vegRatio l) = Some true
  /\ option_map (Qle_bool (1 # 4)) (Measures.exact_mean proteinRatio l) = Some true
  /\ option_map (fun q => Qle_bool q (57 # 100)) (Measures.exact_mean sugaryDrinksCount l)
     = Some true
  /\ analyzeDiet l = [unbalanced_nutrition]
  /\ analyzeDiet l <> [].
Proof.
  cbv zeta. split; [discriminate|].
  do 3 (split; [vm_compute; reflexivity|]).
  split; [vm_compute; reflexivity | vm_compute; discriminate].
Qed.

Lemma analyzeDiet_reordered :
  analyzeDiet [Samples.meal 0.9 0.25 0 0; Samples.meal 0.7 0.25 0 0;
               Samples.meal 0.2 0.25 0 0; Samples.meal 0.2 0.25 0 0] = [].
Proof. vm_compute. reflexivity. Qed.

(** C3: the advice on sugary drinks is emitted exactly when the average
    number of sugary drinks is strictly above 0.57: not at an average of
    exactly 0.57, and at an average of 0.58. *)
Theorem sugary_drink_threshold (l : list DietData) :
  (In excess_sugary_drinks (analyzeDiet l) <-> (0.57 <? avgSugary l) = true)
  /\ (avgSugary l = 0.57 -> ~ In excess_sugary_drinks (analyzeDiet l))
  /\ (avgSugary l = 0.58 -> In excess_sugary_drinks (analyzeDiet l)).
Proof.
  assert (Hiff : In excess_sugary_drinks (analyzeDiet l)
                 <-> (0.57 <? avgSugary l) = true).
  { rewrite analyzeDiet_rules. destruct l as [|d l].
    - vm_compute. split; [tauto | discriminate].
    - cbn [List.length Nat.eqb]. unfold emit.
      destruct ((avgVeg (d :: l) <? 0.5) || (avgProtein (d :: l) <? 0.25)),
               (0.57 <? avgSugary (d :: l)); simpl; split; intro H;
        try reflexivity; try discriminate; try tauto;
        repeat destruct H as [H|H]; try discriminate H; try contradiction. }
  split; [exact Hiff|]. split; intro Havg.
  - rewrite Hiff, Havg. vm_compute. discriminate.
  - rewrite Hiff, Havg. vm_compute. reflexivity.
Qed.

(** The threshold in days: four days out of seven with one sugary drink are
    above it, three are not. *)
Lemma four_days_out_of_seven :
  In excess_sugary_drinks (analyzeDiet (Samples.drinks 4 7))
  /\ ~ In excess_sugary_drinks (analyzeDiet (Samples.drinks 3 7)).
Proof.
  split.
  - vm_compute. auto.
  - vm_compute. intros [].
Qed.

Lemma sugary_drink_threshold_witness :
  ~ In excess_sugary_drinks (analyzeDiet (Samples.drinks 57 100))
  /\ In excess_sugary_drinks (analyzeDiet (Samples.drinks 58 100)).
Proof.
  split.
  - apply (sugary_drink_threshold (Samples.drinks 57 100)). vm_compute. reflexivity.
  - apply (sugary_drink_threshold (Samples.drinks 58 100)). vm_compute. reflexivity.
Defined.

Lemma in_emit (fires : bool) (a b : AdviceItem) :
  In a (emit fires b) <-> fires = true /\ a = b.
Proof.
  destruct fires; simpl; split; intro H.
  - destruct H as [H|[]]. split; [reflexivity | symmetry; exact H].
  - left. symmetry. apply H.
  - contradiction.
  - destruct H as [H _]. discriminate H.
Qed.

Lemma isLateNight_iff (d : SleepData) :
  isLateNight d = true <-> late_bed_time (bedTime d).
Proof.
  unfold isLateNight, late_bed_time, hour_of, minute_of.
  destruct (Number (hd EmptyString (split ":" (bedTime d)))) as [hour|].
  - rewrite orb_true_iff, !andb_true_iff, Z.leb_le, Z.ltb_lt, Z.eqb_eq. split.
    + intros [H|[H23 Hm]]; exists hour; (split; [reflexivity|]).
      * left. exact H.
      * right. split; [exact H23|].
        destruct (parseInt (nth_error (split ":" (bedTime d)) 1)) as [minute|];
          [|discriminate Hm].
        exists minute. split; [reflexivity | apply Z.ltb_lt, Hm].
    + intros [h [Hh [H|[H23 [minute [Hm Hlt]]]]]]; injection Hh as <-.
      * left. exact H.
      * right. split; [exact H23|]. rewrite Hm. apply Z.ltb_lt, Hlt.
  - split; [discriminate|]. intros [h [Hh _]]. discriminate Hh.
Qed.

(** C4: the advice on late nights is emitted exactly when more than two
    entries have a late bed time, that is an hour in [0,5) or the hour 23
    with a minute above 30; a bed time of 23:30 is not late and 23:31 is. *)
Theorem late_night_rule (l : list SleepData) :
  (In frequent_late_nights (analyzeSleep l)
   <-> (2 < List.length (filter isLateNight l))%nat)
  /\ (forall d, isLateNight d = true <-> late_bed_time (bedTime d))
  /\ (forall d, bedTime d = "23:30"%string -> isLateNight d = false)
  /\ (forall d, bedTime d = "23:31"%string -> isLateNight d = true).
Proof.
  split; [|split; [exact isLateNight_iff|split]].
  - rewrite analyzeSleep_rules. fold (lateNights l).
    destruct l as [|d l].
    + cbn. split; [contradiction | lia].
    + cbn [List.length Nat.eqb]. rewrite !in_app_iff, !in_emit, Nat.ltb_lt.
      split.
      * intros [[H _]|[[_ H]|[_ H]]]; [exact H | exfalso; revert H; by_title ..].
      * intro H. left. split; [exact H | reflexivity].
  - intros d Hd. unfold isLateNight. rewrite Hd. reflexivity.
  - intros d Hd. unfold isLateNight. rewrite Hd. reflexivity.
Qed.

Lemma late_night_rule_witness :
  isLateNight (Samples.night "2024-01-01" "23:30" 8 false) = false
  /\ isLateNight (Samples.night "2024-01-01" "23:31" 8 false) = true
  /\ In frequent_late_nights
        (analyzeSleep (repeat (Samples.night "2024-01-01" "23:31" 8 false) 3)).
Proof.
  pose proof (late_night_rule (repeat (Samples.night "2024-01-01" "23:31" 8 false) 3))
    as [Hemit [_ [H30 H31]]].
  split; [apply H30; reflexivity|]. split; [apply H31; reflexivity|].
  apply Hemit. vm_compute. lia.
Defined.

(** C8: each analyzer emits its items in the order of its rules, and every
    item carries the category of its analyzer. *)
Theorem advice_in_rule_order :
  (forall l : list DietData,
     Subseq (analyzeDiet l) [unbalanced_nutrition; excess_sugary_drinks]
     /\ Forall (fun a => category a = Diet) (analyzeDiet l))
  /\ (forall l : list ExerciseData,
     Subseq (analyzeExercise l)
       [insufficient_activity (avgSteps l); insufficient_moderate_exercise;
        excessive_sitting]
     /\ Forall (fun a => category a = Exercise) (analyzeExercise l))
  /\ (forall l : list SleepData,
     Subseq (analyzeSleep l)
       [frequent_late_nights; insufficient_sleep_duration (avgSleep l);
        pre_bed_phone_use]
     /\ Forall (fun a => category a = Sleep) (analyzeSleep l)).
Proof.
  split; [|split]; intro l.
  - rewrite analyzeDiet_rules.
    destruct (Nat.eqb (List.length l) 0),
             ((avgVeg l <? 0.5) || (avgProtein l <? 0.25)), (0.57 <? avgSugary l);
      cbn; split; auto 6 with rules.
  - rewrite analyzeExercise_rules.
    destruct (Nat.eqb (List.length l) 0),
             (avgSteps l <? 8000), (totalModMin l <? 180), (480 <? avgSitting l);
      cbn; split; auto 8 with rules.
  - rewrite analyzeSleep_rules.
    destruct (Nat.eqb (List.length l) 0),
             (Nat.ltb 2 (lateNights l)), (avgSleep l <? 7.5), (Nat.ltb 3 (phoneDays l));
      cbn; split; auto 8 with rules.
Qed.

(** The rule lists hold pairwise different items, so the order is visible. *)
Lemma rule_titles_distinct :
  NoDup (map title [unbalanced_nutrition; excess_sugary_drinks])
  /\ (forall avg, NoDup (map title [insufficient_activity avg;
                                   insufficient_moderate_exercise; excessive_sitting]))
  /\ (forall avg, NoDup (map title [frequent_late_nights;
                                   insufficient_sleep_duration avg; pre_bed_phone_use])).
Proof.
  split; [|split]; intros; cbn [map title insufficient_activity insufficient_sleep_duration
    unbalanced_nutrition excess_sugary_drinks insufficient_moderate_exercise
    excessive_sitting frequent_late_nights pre_bed_phone_use];
    repeat constructor; cbn [In]; intro H; repeat destruct H as [H|H];
      try discriminate H; try contradiction.
Qed.

End RulesFacts.

(** ** The gamification engine: points, level and progress *)

Module PointsFacts.
Import JS Gamification FloatOrder Notions.
Local Open Scope Z_scope.

Lemma diet_step_additive : additive diet_step.
Proof. intros points d. unfold diet_step. by_cases_on_rules. Qed.

Lemma exercise_step_additive : additive exercise_step.
Proof. intros points e. unfold exercise_step. by_cases_on_rules. Qed.

Lemma sleep_step_additive : additive sleep_step.
Proof. intros points s. unfold sleep_step. by_cases_on_rules. Qed.

Lemma diet_step_rewarding : rewarding diet_step.
Proof. intro d. unfold diet_step. by_cases_on_rules. Qed.

Lemma exercise_step_rewarding : rewarding exercise_step.
Proof. intro e. unfold exercise_step. by_cases_on_rules. Qed.

Lemma sleep_step_rewarding : rewarding sleep_step.
Proof. intro s. unfold sleep_step. by_cases_on_rules. Qed.

Section Loops.
Context {A : Type} (step : Z -> A -> Z).
Hypothesis Hadd : additive step.

Lemma forEach_additive (l : list A) (points : Z) :
  fold_left step l points = points + fold_left step l 0.
Proof.
  revert points. induction l as [|x l IH]; intro points; cbn.
  - lia.
  - rewrite (IH (step points x)), (IH (step 0 x)), (Hadd points x). lia.
Qed.

Lemma forEach_snoc (l : list A) (x : A) (points : Z) :
  fold_left step (l ++ [x]) points = fold_left step l points + step 0 x.
Proof. rewrite fold_left_app. cbn. apply Hadd. Qed.

Hypothesis Hrew : rewarding step.

Lemma forEach_rewarding (l : list A) :
  0 <= fold_left step l 0 /\ fold_left step l 0 mod 5 = 0.
Proof.
  induction l as [|x l IH] using rev_ind.
  - cbn. split; [lia | reflexivity].
  - rewrite forEach_snoc. destruct IH as [IH0 IH5], (Hrew x) as [Hx0 Hx5].
    split; [lia|]. rewrite Z.add_mod, IH5, Hx5 by lia. reflexivity.
Qed.
End Loops.

Lemma points_of_sum diets exercises sleeps :
  points_of diets exercises sleeps =
  fold_left diet_step diets 0 + fold_left exercise_step exercises 0
  + fold_left sleep_step sleeps 0.
Proof.
  unfold points_of.
  rewrite (forEach_additive _ sleep_step_additive sleeps).
  rewrite (forEach_additive _ exercise_step_additive exercises).
  reflexivity.
Qed.

Lemma points_of_multiple_of_5 diets exercises sleeps :
  0 <= points_of diets exercises sleeps
  /\ points_of diets exercises sleeps mod 5 = 0.
Proof.
  rewrite points_of_sum.
  destruct (forEach_rewarding _ diet_step_additive diet_step_rewarding diets) as [Hd0 Hd5].
  destruct (forEach_rewarding _ exercise_step_additive exercise_step_rewarding exercises)
    as [He0 He5].
  destruct (forEach_rewarding _ sleep_step_additive sleep_step_rewarding sleeps)
    as [Hs0 Hs5].
  split; [lia|].
  rewrite Z.add_mod, (Z.add_mod (fold_left diet_step diets 0)), Hd5, He5, Hs5 by lia.
  reflexivity.
Qed.

(** On the remainders that points can leave, the binary64 computation of the
    progress gives the exact integer part.  (It does not on 58, 114 and 116,
    which are not multiples of 5.) *)
Lemma progress_on_residue (r : Z) :
  0 <= r < 200 -> r mod 5 = 0 ->
  Math_floor ((of_Z r / of_Z pointsPerLevel) * 100)%float
  = of_Z (Qfloor (inject_Z r / 200 * 100)%Q)
  /\ 0 <= Qfloor (inject_Z r / 200 * 100)%Q <= 99.
Proof.
  intros Hr H5.
  assert (Hj : r = 5 * Z.of_nat (Z.to_nat (r / 5))).
  { rewrite Z2Nat.id by (apply Z.div_pos; lia).
    rewrite (Z.div_mod r 5) at 1 by lia. lia. }
  assert (Hlt : (Z.to_nat (r / 5) < 40)%nat).
  { apply Nat2Z.inj_lt. rewrite Z2Nat.id by (apply Z.div_pos; lia).
    apply Z.div_lt_upper_bound; lia. }
  revert Hj Hlt. generalize (Z.to_nat (r / 5)) as j. intros j -> Hlt. clear Hr H5.
  do 40 (destruct j as [|j]; [vm_compute; repeat split; discriminate|]).
  lia.
Qed.

Lemma progress_off_residue :
  progress_of 58 = of_Z 28 /\ Qfloor (inject_Z 58 / 200 * 100)%Q = 29.
Proof. vm_compute. split; reflexivity. Qed.

(** C5: the level is the integer part of a 200th of the points plus one, and
    the progress is the integer part of [(points mod 200) / 200 * 100], an
    integer from 0 to 99 (hence also within the 0 to 100 of the data model). *)
Theorem level_and_progress diets exercises sleeps :
  let st := calculateGamificationState diets exercises sleeps in
  level st = totalPoints st / 200 + 1
  /\ exists k : Z,
       progressToNextLevel st = of_Z k
       /\ k = Qfloor (inject_Z (totalPoints st mod 200) / 200 * 100)%Q
       /\ 0 <= k <= 99 /\ 0 <= k <= 100.
Proof.
  cbn. split; [reflexivity|].
  destruct (points_of_multiple_of_5 diets exercises sleeps) as [H0 H5].
  set (p := points_of diets exercises sleeps) in *.
  assert (Hr : 0 <= p mod 200 < 200) by (apply Z.mod_pos_bound; lia).
  assert (Hr5 : (p mod 200) mod 5 = 0).
  { rewrite Z.mod_mod_divide by (exists 40; reflexivity). exact H5. }
  destruct (progress_on_residue (p mod 200) Hr Hr5) as [Hfloor Hrange].
  exists (Qfloor (inject_Z (p mod 200) / 200 * 100)%Q).
  split; [|split; [reflexivity | lia]].
  unfold progress_of, pointsPerLevel in *. rewrite Z.rem_mod_nonneg by lia. exact Hfloor.
Qed.

(** C6: from 12000 steps on an exercise entry earns the 15 points of the 8000
    steps and the 10 points of the 12000 steps together; an entry of exactly
    12000 steps with less than 30 minutes of exercise, alone, gives 25
    points, level 1 and a progress of 12. *)
Theorem step_rewards_stack :
  (forall (e : ExerciseData) (points : Z),
      (12000 <=? dailySteps e)%float = true ->
      exercise_step points e
      = points + 15 + 10
        + (if (30 <=? moderateExerciseMinutes e)%float then 20 else 0))
  /\ (forall e : ExerciseData,
      dailySteps e = 12000%float ->
      (moderateExerciseMinutes e <? 30)%float = true ->
      let st := calculateGamificationState [] [e] [] in
      totalPoints st = 25 /\ level st = 1 /\ progressToNextLevel st = 12%float).
Proof.
  assert (Hstack : forall (e : ExerciseData) (points : Z),
      (12000 <=? dailySteps e)%float = true ->
      exercise_step points e
      = points + 15 + 10
        + (if (30 <=? moderateExerciseMinutes e)%float then 20 else 0)).
  { intros e points H12. unfold exercise_step.
    rewrite (leb_trans 8000 12000 (dailySteps e) eq_refl H12), H12.
    destruct (30 <=? moderateExerciseMinutes e)%float; lia. }
  split; [exact Hstack|].
  intros e Hsteps Hmin.
  assert (H12 : (12000 <=? dailySteps e)%float = true) by (rewrite Hsteps; reflexivity).
  cbn. rewrite (Hstack e 0 H12), (ltb_leb_false _ _ Hmin).
  vm_compute. repeat split.
Qed.

Lemma step_rewards_stack_witness :
  let st := calculateGamificationState [] [Samples.workout 12000%float 0%float] [] in
  totalPoints st = 25 /\ level st = 1 /\ progressToNextLevel st = 12%float.
Proof.
  apply (proj2 step_rewards_stack); vm_compute; reflexivity.
Defined.

Lemma level_monotone (p q : Z) : p <= q -> level_of p <= level_of q.
Proof.
  intro H. unfold level_of, pointsPerLevel.
  pose proof (Z.div_le_mono p q 200 ltac:(lia) H). lia.
Qed.

(** C10: an entry never takes points away, so one more entry in any of the
    three lists leaves the total, and with it the level, at least as high. *)
Theorem points_monotone diets exercises sleeps
    (d : DietData) (e : ExerciseData) (s : SleepData) :
  let st := calculateGamificationState diets exercises sleeps in
  (forall points, points <= diet_step points d
                  /\ points <= exercise_step points e
                  /\ points <= sleep_step points s)
  /\ (let st' := calculateGamificationState (diets ++ [d]) exercises sleeps in
      totalPoints st <= totalPoints st' /\ level st <= level st')
  /\ (let st' := calculateGamificationState diets (exercises ++ [e]) sleeps in
      totalPoints st <= totalPoints st' /\ level st <= level st')
  /\ (let st' := calculateGamificationState diets exercises (sleeps ++ [s]) in
      totalPoints st <= totalPoints st' /\ level st <= level st').
Proof.
  cbn.
  pose proof (proj1 (diet_step_rewarding d)) as Hd.
  pose proof (proj1 (exercise_step_rewarding e)) as He.
  pose proof (proj1 (sleep_step_rewarding s)) as Hs.
  split.
  { intro points.
    rewrite (diet_step_additive points d), (exercise_step_additive points e),
            (sleep_step_additive points s). lia. }
  rewrite !points_of_sum.
  rewrite (forEach_snoc _ diet_step_additive), (forEach_snoc _ exercise_step_additive),
          (forEach_snoc _ sleep_step_additive).
  repeat split; try apply level_monotone; lia.
Qed.

End PointsFacts.

(** ** The gamification engine: the sorted copy and the sleep streak *)

Module StreakFacts.
Import JS Gamification Notions.
Local Open Scope nat_scope.

Section Sorting.
Context {A : Type} (compareFn : A -> A -> option Z).

Lemma insert_perm (x : A) (l : list A) :
  Permutation (x :: l) (insert compareFn x l).
Proof.
  induction l as [|y t IH]; cbn.
  - apply Permutation_refl.
  - destruct (after compareFn x y).
    + apply perm_trans with (y :: x :: t); [apply perm_swap|].
      apply perm_skip, IH.
    + apply Permutation_refl.
Qed.

Lemma sort_perm (l : list A) : Permutation l (sort compareFn l).
Proof.
  induction l as [|x t IH]; cbn.
  - apply perm_nil.
  - apply perm_trans with (x :: sort compareFn t);
      [apply perm_skip, IH | apply insert_perm].
Qed.
End Sorting.

Lemma ascending_trans (a b c : SleepData) :
  ascending a b -> ascending b c -> ascending a c.
Proof.
  unfold ascending.
  destruct (time_of a), (time_of b), (time_of c); try contradiction; lia.
Qed.

Lemma insert_ascending (x : SleepData) (l : list SleepData) :
  dated x -> Forall dated l ->
  StronglySorted ascending l -> StronglySorted ascending (insert by_date x l).
Proof.
  intros Hx Hl Hs. induction Hs as [|y t Hs IH Hy]; cbn.
  - constructor; constructor.
  - inversion Hl as [|? ? Hdy Hdt]; subst.
    assert (Hcmp : if after by_date x y then ascending y x else ascending x y).
    { unfold after, by_date, ascending, dated, time_of in *.
      destruct (Date_getTime (sleep_date x)) as [tx|]; [|congruence].
      destruct (Date_getTime (sleep_date y)) as [ty|]; [|congruence].
      destruct (Z.ltb_spec 0 (tx - ty)); lia. }
    destruct (after by_date x y).
    + constructor; [apply IH, Hdt|].
      apply (Permutation_Forall (insert_perm by_date x t)).
      constructor; assumption.
    + constructor; [constructor; assumption|].
      constructor; [assumption|].
      apply Forall_impl with (P := ascending y); [|assumption].
      intros z Hz. apply ascending_trans with y; assumption.
Qed.

Lemma sort_ascending (l : list SleepData) :
  Forall dated l -> StronglySorted ascending (sort by_date l).
Proof.
  induction l as [|x t IH]; intro Hl; cbn.
  - constructor.
  - inversion Hl as [|? ? Hx Ht]; subst.
    apply insert_ascending; [assumption | | apply IH, Ht].
    apply (Permutation_Forall (sort_perm by_date t)), Ht.
Qed.

Lemma streak_step_good (c m : nat) (s : SleepData) :
  good s = true -> streak_step (c, m) s = (S c, Nat.max m (S c)).
Proof. unfold streak_step, good. intros ->. reflexivity. Qed.

Lemma streak_step_bad (c m : nat) (s : SleepData) :
  good s = false -> streak_step (c, m) s = (0, m).
Proof. unfold streak_step, good. intros ->. reflexivity. Qed.

Lemma continues_cons_inv (n c : nat) (x : SleepData) (t : list SleepData) :
  continues n c (x :: t) ->
  good x = true /\ (n <= S c \/ continues n (S c) t).
Proof.
  intros [run [post [E [Hne [Hall Hlen]]]]].
  destruct run as [|y run]; [contradiction|].
  cbn in E. injection E as <- ->.
  inversion Hall as [|? ? Hy Hrun]; subst. split; [exact Hy|].
  destruct run as [|z run].
  - left. cbn in Hlen. lia.
  - right. exists (z :: run), post.
    split; [reflexivity|]. split; [discriminate|]. split; [exact Hrun|].
    cbn in *. lia.
Qed.

Lemma has_run_cons_inv (n : nat) (x : SleepData) (t : list SleepData) :
  0 < n -> has_run n (x :: t) ->
  has_run n t \/ (good x = true /\ (n <= 1 \/ continues n 1 t)).
Proof.
  intros Hn [pre [run [post [E [Hlen Hall]]]]].
  destruct pre as [|y pre].
  - right. cbn in E.
    apply (continues_cons_inv n 0 x t).
    destruct run as [|z run]; [cbn in Hlen; lia|].
    exists (z :: run), post. repeat split; [exact E | discriminate | exact Hall | lia].
  - left. cbn in E. injection E as <- ->. exists pre, run, post. auto.
Qed.

Lemma has_run_cons (n : nat) (x : SleepData) (t : list SleepData) :
  has_run n t -> has_run n (x :: t).
Proof.
  intros [pre [run [post [-> H]]]]. exists (x :: pre), run, post. auto.
Qed.

(** The loop over the sorted entries: the maximum reaches [n] exactly when it
    had already, or the streak in progress is continued up to [n], or the
    entries still to come hold [n] good nights in a row. *)
Lemma streak_loop (n : nat) (l : list SleepData) :
  0 < n -> forall c m,
  n <= snd (fold_left streak_step l (c, m))
  <-> n <= m \/ continues n c l \/ has_run n l.
Proof.
  intro Hn. induction l as [|x t IH]; intros c m.
  - cbn. split; [auto|]. intros [H|[H|H]]; [exact H| |].
    + destruct H as [run [post [E [Hne _]]]].
      symmetry in E. apply app_eq_nil in E. destruct E. contradiction.
    + destruct H as [pre [run [post [E [Hlen _]]]]].
      symmetry in E. apply app_eq_nil in E. destruct E as [_ E].
      apply app_eq_nil in E. destruct E as [-> _]. cbn in Hlen. lia.
  - cbn [fold_left]. destruct (good x) eqn:Hx.
    + rewrite (streak_step_good c m x Hx), IH. split.
      * intros [H|[H|H]].
        -- destruct (Nat.le_gt_cases n m) as [Hm|Hm]; [left; exact Hm|].
           right. left. exists [x], t.
           repeat split; [discriminate | constructor; auto | cbn; lia].
        -- right. left. destruct H as [run [post [-> [Hne [Hall Hlen]]]]].
           exists (x :: run), post.
           repeat split; [discriminate | constructor; auto | cbn; lia].
        -- right. right. apply has_run_cons, H.
      * intros [H|[H|H]].
        -- left. lia.
        -- apply continues_cons_inv in H. destruct H as [_ [H|H]]; [left; lia | auto].
        -- apply has_run_cons_inv in H; [|exact Hn].
           destruct H as [H|[_ [H|H]]]; [auto | left; lia |].
           right. left. destruct H as [run [post [E [Hne [Hall Hlen]]]]].
           exists run, post. repeat split; auto. lia.
    + rewrite (streak_step_bad c m x Hx), IH. split.
      * intros [H|[H|H]]; [left; exact H | |].
        -- right. right. destruct H as [run [post [-> [Hne [Hall Hlen]]]]].
           exists [x], run, post. repeat split; auto.
        -- right. right. apply has_run_cons, H.
      * intros [H|[H|H]]; [left; exact H | |].
        -- apply continues_cons_inv in H. destruct H as [H _]. congruence.
        -- apply has_run_cons_inv in H; [|exact Hn].
           destruct H as [H|[H _]]; [auto | congruence].
Qed.

Lemma maxSleepStreak_run (n : nat) (l : list SleepData) :
  0 < n -> (n <= maxSleepStreak_of l <-> has_run n l).
Proof.
  intro Hn. unfold maxSleepStreak_of. rewrite (streak_loop n l Hn). split.
  - intros [H|[H|H]]; [lia | | exact H].
    destruct H as [run [post [-> [_ [Hall Hlen]]]]]. exists [], run, post. auto.
  - auto.
Qed.

Lemma sleep_streak_flag diets exercises sleeps sortedSleeps :
  unlocked "sleep_streak" (state_from diets exercises sleeps sortedSleeps)
  = Nat.leb 3 (maxSleepStreak_of sortedSleeps).
Proof.
  unfold unlocked, state_from. cbn [badges].
  destruct (Nat.leb 3 (maxSleepStreak_of sortedSleeps)); reflexivity.
Qed.

Lemma ascending_antisym (a b : SleepData) :
  ascending a b -> ascending b a -> time_of a = time_of b.
Proof.
  unfold ascending. destruct (time_of a), (time_of b); try contradiction.
  intros. f_equal. lia.
Qed.

(** The sort is stable: the entries of one date stay in the order in which
    they were recorded. *)
Lemma insert_stable (t : Z) (x : SleepData) (l : list SleepData) :
  filter (Measures.same_time t) (insert by_date x l)
  = filter (Measures.same_time t) (x :: l).
Proof.
  induction l as [|y l IH]; [reflexivity|]. cbn [insert].
  destruct (after by_date x y) eqn:E; [|reflexivity].
  cbn [filter]. rewrite IH. cbn [filter].
  unfold after, by_date in E. unfold Measures.same_time.
  destruct (Date_getTime (sleep_date x)) as [tx|]; [|discriminate E].
  destruct (Date_getTime (sleep_date y)) as [ty|]; [|discriminate E].
  apply Z.ltb_lt in E.
  destruct (Z.eqb_spec tx t), (Z.eqb_spec ty t); try reflexivity. exfalso. lia.
Qed.

Lemma sort_stable (t : Z) (l : list SleepData) :
  filter (Measures.same_time t) (sort by_date l) = filter (Measures.same_time t) l.
Proof.
  induction l as [|x l IH]; [reflexivity|]. cbn [sort].
  rewrite insert_stable. cbn [filter]. rewrite IH. reflexivity.
Qed.

(** Two ascending orders of the same entries that keep the entries of each
    date in the same order are one list. *)
Lemma stable_order_unique (l1 l2 : list SleepData) :
  StronglySorted ascending l1 -> StronglySorted ascending l2 ->
  Permutation l1 l2 ->
  (forall t, filter (Measures.same_time t) l1 = filter (Measures.same_time t) l2) ->
  l1 = l2.
Proof.
  intro H1. revert l2. induction H1 as [|a t1 Hs1 IH Ha]; intros l2 H2 Hperm Hst.
  - apply Permutation_nil in Hperm. congruence.
  - destruct H2 as [|b t2 Hs2 Hb].
    { apply Permutation_sym, Permutation_nil in Hperm. discriminate. }
    assert (Hab : a = b).
    { assert (Hina : In a (b :: t2)) by (apply (Permutation_in _ Hperm); left; reflexivity).
      assert (Hinb : In b (a :: t1))
        by (apply (Permutation_in _ (Permutation_sym Hperm)); left; reflexivity).
      destruct Hina as [Hina|Hina]; [congruence|].
      destruct Hinb as [Hinb|Hinb]; [congruence|].
      rewrite Forall_forall in Ha, Hb.
      pose proof (Ha b Hinb) as Hasc.
      pose proof (ascending_antisym a b Hasc (Hb a Hina)) as Htime.
      unfold ascending in Hasc. unfold time_of in *.
      destruct (Date_getTime (sleep_date a)) as [t|] eqn:Eta; [|contradiction].
      assert (Hta : Measures.same_time t a = true)
        by (unfold Measures.same_time; rewrite Eta; apply Z.eqb_refl).
      assert (Htb : Measures.same_time t b = true)
        by (unfold Measures.same_time; rewrite <- Htime; apply Z.eqb_refl).
      specialize (Hst t). cbn [filter] in Hst. rewrite Hta, Htb in Hst. congruence. }
    subst b. f_equal. apply IH; [assumption | |].
    + apply Permutation_cons_inv with a, Hperm.
    + intro t. specialize (Hst t). cbn [filter] in Hst.
      destruct (Measures.same_time t a); congruence.
Qed.

(** C7: the sleep-streak badge is unlocked exactly when the sorted copy of
    the entries holds at least three in a row, by position, with seven hours
    of sleep or more, whatever the order the sort has left the copy in.  When
    every entry has a valid date the sorted copy is the entries in ascending
    order of date, those of one date in the order recorded: the one list a
    stable sort can return.  The days between the nights do not matter, and
    the hours 6,6,6,8,8,8,8 in date order unlock the badge. *)
Theorem sleep_streak_badge diets exercises sleeps :
  (forall sortedSleeps,
     unlocked "sleep_streak" (state_from diets exercises sleeps sortedSleeps) = true
     <-> has_run 3 sortedSleeps)
  /\ (Forall dated sleeps ->
      let sortedSleeps := sortedSleeps_of sleeps in
      Permutation sleeps sortedSleeps
      /\ StronglySorted ascending sortedSleeps
      /\ (forall t, filter (Measures.same_time t) sortedSleeps
                    = filter (Measures.same_time t) sleeps)
      /\ (forall sorted',
            Permutation sleeps sorted' -> StronglySorted ascending sorted' ->
            (forall t, filter (Measures.same_time t) sorted'
                       = filter (Measures.same_time t) sleeps) ->
            sorted' = sortedSleeps)
      /\ (unlocked "sleep_streak" (calculateGamificationState diets exercises sleeps)
          = true
          <-> has_run 3 sortedSleeps))
  /\ unlocked "sleep_streak"
       (calculateGamificationState diets exercises (week [6; 6; 6; 8; 8; 8; 8]%float))
     = true
  /\ unlocked "sleep_streak" (calculateGamificationState diets exercises scattered)
     = true.
Proof.
  assert (Hany : forall sortedSleeps,
     unlocked "sleep_streak" (state_from diets exercises sleeps sortedSleeps) = true
     <-> has_run 3 sortedSleeps).
  { intro sortedSleeps. rewrite sleep_streak_flag, Nat.leb_le.
    apply maxSleepStreak_run. lia. }
  split; [exact Hany|]. split.
  - intro Hdated. cbn zeta. unfold sortedSleeps_of.
    split; [apply sort_perm|]. split; [apply sort_ascending, Hdated|].
    split; [intro t; apply sort_stable|]. split.
    + intros sorted' Hperm Hsorted Hstable. apply stable_order_unique.
      * exact Hsorted.
      * apply sort_ascending, Hdated.
      * apply perm_trans with sleeps; [apply Permutation_sym, Hperm | apply sort_perm].
      * intro t. rewrite Hstable, sort_stable. reflexivity.
    + apply Hany.
  - unfold calculateGamificationState. rewrite !sleep_streak_flag.
    split; vm_compute; reflexivity.
Qed.

Lemma sleep_streak_badge_witness :
  StronglySorted ascending (sortedSleeps_of scattered)
  /\ has_run 3 (sortedSleeps_of scattered).
Proof.
  pose proof (sleep_streak_badge [] [] scattered) as [_ [Hdated [_ Hun]]].
  assert (Hd : Forall dated scattered) by (repeat constructor; vm_compute; discriminate).
  destruct (Hdated Hd) as [_ [Hsorted [_ [_ Hiff]]]].
  split; [exact Hsorted | apply Hiff, Hun].
Defined.

(** With a date that is not valid the order of the copy is the engine's
    choice; the order computed here for the nights of 5 March, 4 March, no
    date and 3 March is one in which the three good nights are not in a
    row. *)
Lemma undated_night :
  map sleep_date
    (sortedSleeps_of [Samples.night "2024-03-05" "22:30" 8%float false;
                      Samples.night "2024-03-04" "22:30" 8%float false;
                      Samples.night "" "22:30" 5%float false;
                      Samples.night "2024-03-03" "22:30" 8%float false])
  = ["2024-03-04"; "2024-03-05"; ""; "2024-03-03"]%string.
Proof. vm_compute. reflexivity. Qed.

End StreakFacts.

(** ** The engines as functions of their inputs *)

Module PurityFacts.
Import JS Rules.
Local Open Scope nat_scope.

Lemma read_alloc (a : list SleepData) (h : Shared.heap) :
  Shared.read (snd (Shared.alloc a h)) (fst (Shared.alloc a h)) = a.
Proof. unfold Shared.read, Shared.alloc. cbn. apply nth_middle. Qed.

Lemma read_alloc_old (a : list SleepData) (h : Shared.heap) (r : Shared.ref) :
  r < List.length h -> Shared.read (snd (Shared.alloc a h)) r = Shared.read h r.
Proof. intro Hr. unfold Shared.read, Shared.alloc. cbn. apply app_nth1, Hr. Qed.

Lemma read_write (a : list SleepData) (h : Shared.heap) (r : Shared.ref) :
  r < List.length h -> Shared.read (Shared.write r a h) r = a.
Proof.
  revert r. induction h as [|x t IH]; intros r Hr; [cbn in Hr; lia|].
  destruct r as [|r]; cbn; [reflexivity|]. apply IH. cbn in Hr. lia.
Qed.

Lemma read_write_other (a : list SleepData) (h : Shared.heap) (r r' : Shared.ref) :
  r <> r' -> Shared.read (Shared.write r a h) r' = Shared.read h r'.
Proof.
  revert r r'. induction h as [|x t IH]; intros r r' Hne; [destruct r; reflexivity|].
  destruct r as [|r], r' as [|r']; cbn; try reflexivity; try congruence.
  apply IH. congruence.
Qed.

Lemma length_write (a : list SleepData) (h : Shared.heap) (r : Shared.ref) :
  List.length (Shared.write r a h) = List.length h.
Proof.
  revert r. induction h as [|x t IH]; intros [|r]; cbn; auto.
Qed.

Lemma heap_grows diets exercises (sleeps : Shared.ref) (h : Shared.heap) :
  List.length h
  <= List.length (snd (Shared.calculateGamificationState diets exercises sleeps h)).
Proof.
  unfold Shared.calculateGamificationState, Shared.spread, Shared.sort_in_place,
         Shared.alloc.
  cbn [snd]. rewrite length_write, length_app. lia.
Qed.

(** On a heap the engine returns what the function of the entries returns,
    and it leaves every array that existed before the call as it was: the
    only array it sorts is its own copy. *)
Lemma calculateGamificationState_shared diets exercises (sleeps : Shared.ref)
    (h : Shared.heap) :
  fst (Shared.calculateGamificationState diets exercises sleeps h)
  = Gamification.calculateGamificationState diets exercises (Shared.read h sleeps)
  /\ forall r, r < List.length h ->
       Shared.read (snd (Shared.calculateGamificationState diets exercises sleeps h)) r
       = Shared.read h r.
Proof.
  unfold Shared.calculateGamificationState, Shared.spread, Shared.sort_in_place,
         Shared.alloc, Gamification.calculateGamificationState,
         Gamification.sortedSleeps_of.
  cbn [fst snd]. split.
  - f_equal. rewrite read_write by (rewrite length_app; cbn; lia).
    f_equal. unfold Shared.read. apply nth_middle.
  - intros r Hr. rewrite read_write_other by lia.
    unfold Shared.read. apply app_nth1, Hr.
Qed.

(** C9: the four engines are functions of their inputs alone.  Equal inputs
    give equal outputs; on shared arrays, the result of
    [calculateGamificationState] depends on the heap only through the
    entries of its argument, the call changes no array of the caller, and a
    second call returns the same state. *)
Theorem engines_pure :
  (forall l l' : list DietData, l = l' -> analyzeDiet l = analyzeDiet l')
  /\ (forall l l' : list ExerciseData, l = l' -> analyzeExercise l = analyzeExercise l')
  /\ (forall l l' : list SleepData, l = l' -> analyzeSleep l = analyzeSleep l')
  /\ (forall d d' e e' s s', d = d' -> e = e' -> s = s' ->
        Gamification.calculateGamificationState d e s
        = Gamification.calculateGamificationState d' e' s')
  /\ (forall d e (r r' : Shared.ref) (h h' : Shared.heap),
        Shared.read h r = Shared.read h' r' ->
        fst (Shared.calculateGamificationState d e r h)
        = fst (Shared.calculateGamificationState d e r' h')
        /\ fst (Shared.analyzeSleep r h) = fst (Shared.analyzeSleep r' h'))
  /\ (forall d e (r : Shared.ref) (h : Shared.heap),
        r < List.length h ->
        let (st, h1) := Shared.calculateGamificationState d e r h in
        let (st', h2) := Shared.calculateGamificationState d e r h1 in
        st' = st /\ Shared.read h1 r = Shared.read h r
        /\ Shared.read h2 r = Shared.read h r).
Proof.
  do 4 (split; [intros; subst; reflexivity|]). split.
  - intros d e r r' h h' Hread. split.
    + destruct (calculateGamificationState_shared d e r h) as [-> _].
      destruct (calculateGamificationState_shared d e r' h') as [-> _].
      congruence.
    + cbn. congruence.
  - intros d e r h Hr.
    pose proof (calculateGamificationState_shared d e r h) as [Hst Hframe].
    destruct (Shared.calculateGamificationState d e r h) as [st h1] eqn:E1.
    cbn [fst snd] in Hst, Hframe.
    assert (Hlen : List.length h <= List.length h1).
    { pose proof (heap_grows d e r h) as Hg. rewrite E1 in Hg. exact Hg. }
    pose proof (calculateGamificationState_shared d e r h1) as [Hst' Hframe'].
    destruct (Shared.calculateGamificationState d e r h1) as [st' h2].
    cbn [fst snd] in Hst', Hframe'.
    rewrite (Hframe' r) by lia. rewrite Hst', Hst, (Hframe r Hr).
    repeat split.
Qed.

Lemma engines_pure_witness :
  let h := [Notions.scattered; Notions.week [6; 6; 6; 8; 8; 8; 8]%float] in
  let (st, h1) := Shared.calculateGamificationState [] [] 0 h in
  let (st', h2) := Shared.calculateGamificationState [] [] 0 h1 in
  st' = st /\ Shared.read h1 0 = Shared.read h 0 /\ Shared.read h2 0 = Shared.read h 0.
Proof.
  apply (proj2 (proj2 (proj2 (proj2 (proj2 engines_pure))))). cbn. lia.
Defined.

(** Sorting the caller's array itself would show: the entries of [scattered]
    are not in date order. *)
Lemma sort_in_place_is_visible :
  Shared.read (snd (Shared.sort_in_place Gamification.by_date 0 [Notions.scattered])) 0
  <> Notions.scattered.
Proof. vm_compute. discriminate. Qed.

End PurityFacts.

(** ** Empty inputs *)

Module EmptyFacts.
Import JS Rules Gamification.

(** C1: on empty input every analyzer returns no advice, and the gamification
    state has no points, level 1, no progress, its four badges locked and its
    three challenges at zero and not completed. *)
Theorem empty_inputs :
  analyzeDiet [] = [] /\ analyzeExercise [] = [] /\ analyzeSleep [] = []
  /\ let st := calculateGamificationState [] [] [] in
     totalPoints st = 0%Z /\ level st = 1%Z /\ progressToNextLevel st = 0%float
     /\ map badge_id (badges st)
        = ["first_step"; "step_master"; "sleep_streak"; "clean_eater"]%string
     /\ Forall (fun b => isUnlocked b = false) (badges st)
     /\ map challenge_id (challenges st)
        = ["weekly_steps"; "active_week"; "balanced_diet"]%string
     /\ Forall (fun c => current c = 0%float /\ isCompleted c = false) (challenges st).
Proof.
  repeat split; try reflexivity; vm_compute; repeat constructor.
Qed.

End EmptyFacts.

(** * Further properties of the code *)

(** ** NaN in the binary64 operations *)

Module NaNFacts.
Import JS Measures.

Lemma SFcompare_refl (f : spec_float) :
  SFcompare f f = match f with S754_nan => None | _ => Some Eq end.
Proof.
  destruct f as [s|s| |s m e]; cbn; try reflexivity.
  - destruct s; reflexivity.
  - change (PosDef.Pos.compare_cont Eq m m) with (Pos.compare m m).
    rewrite Z.compare_refl, Pos.compare_refl. destruct s; reflexivity.
Qed.

Lemma isNaN_spec (x : number) : isNaN x = true <-> Prim2SF x = S754_nan.
Proof.
  unfold isNaN. rewrite FloatAxioms.eqb_spec. unfold SFeqb.
  rewrite SFcompare_refl. destruct (Prim2SF x); cbn; split; congruence.
Qed.

Lemma add_NaN_l (x y : number) : isNaN x = true -> isNaN (x + y)%float = true.
Proof.
  rewrite !isNaN_spec, FloatAxioms.add_spec. intros ->. reflexivity.
Qed.

Lemma add_NaN_r (x y : number) : isNaN y = true -> isNaN (x + y)%float = true.
Proof.
  rewrite !isNaN_spec, FloatAxioms.add_spec. intros ->.
  destruct (Prim2SF x); reflexivity.
Qed.

Lemma div_NaN_l (x y : number) : isNaN x = true -> isNaN (x / y)%float = true.
Proof.
  rewrite !isNaN_spec, FloatAxioms.div_spec. intros ->. reflexivity.
Qed.

Lemma ltb_NaN_l (x y : number) : isNaN x = true -> (x <? y)%float = false.
Proof.
  rewrite isNaN_spec, FloatAxioms.ltb_spec. intros ->. reflexivity.
Qed.

Lemma ltb_NaN_r (x y : number) : isNaN y = true -> (x <? y)%float = false.
Proof.
  rewrite isNaN_spec, FloatAxioms.ltb_spec. intros ->.
  unfold SFltb. destruct (Prim2SF x); reflexivity.
Qed.

Lemma leb_NaN_r (x y : number) : isNaN y = true -> (x <=? y)%float = false.
Proof.
  rewrite isNaN_spec, FloatAxioms.leb_spec. intros ->.
  unfold SFleb. destruct (Prim2SF x); reflexivity.
Qed.

(** A sum that met a NaN is NaN. *)
Lemma fold_NaN_acc {A : Type} (f : A -> number) (l : list A) (acc : number) :
  isNaN acc = true ->
  isNaN (fold_left (fun sum d => sum + f d)%float l acc) = true.
Proof.
  revert acc. induction l as [|d l IH]; intros acc Hacc; cbn; [exact Hacc|].
  apply IH, add_NaN_l, Hacc.
Qed.

Lemma fold_NaN {A : Type} (f : A -> number) (l : list A) (acc : number) (d : A) :
  In d l -> isNaN (f d) = true ->
  isNaN (fold_left (fun sum d => sum + f d)%float l acc) = true.
Proof.
  revert acc. induction l as [|d' l IH]; intros acc Hin Hd; [contradiction|].
  cbn. destruct Hin as [->|Hin].
  - apply fold_NaN_acc, add_NaN_r, Hd.
  - apply IH; assumption.
Qed.

End NaNFacts.

(** ** More on the rule engine *)

Module AdviceFacts.
Import JS Rules Gamification FloatOrder Notions Measures NaNFacts RulesFacts.
Local Open Scope nat_scope.

Lemma nonempty_length {A : Type} (l : list A) (d : A) :
  In d l -> Nat.eqb (List.length l) 0 = false.
Proof. destruct l; [contradiction | reflexivity]. Qed.

Lemma average_NaN {A : Type} (f : A -> number) (l : list A) (d : A) :
  In d l -> isNaN (f d) = true ->
  isNaN (reduce_sum f l / length_of l)%float = true.
Proof. intros Hin Hd. apply div_NaN_l, (fold_NaN f l _ d Hin Hd). Qed.

(** One value that is not a number silences its rule for the whole list:
    the sum, and with it the average, is then NaN and every comparison with
    NaN is false. *)
Theorem NaN_silences_rules :
  (forall (l : list DietData) d, In d l ->
     isNaN (sugaryDrinksCount d) = true ->
     ~ In excess_sugary_drinks (analyzeDiet l))
  /\ (forall (l : list DietData) d, In d l ->
     isNaN (vegRatio d) = true -> isNaN (proteinRatio d) = true ->
     ~ In unbalanced_nutrition (analyzeDiet l))
  /\ (forall (l : list ExerciseData) d, In d l ->
     isNaN (dailySteps d) = true ->
     forall avg, ~ In (insufficient_activity avg) (analyzeExercise l))
  /\ (forall (l : list ExerciseData) d, In d l ->
     isNaN (moderateExerciseMinutes d) = true ->
     ~ In insufficient_moderate_exercise (analyzeExercise l))
  /\ (forall (l : list ExerciseData) d, In d l ->
     isNaN (totalSittingMinutes d) = true ->
     ~ In excessive_sitting (analyzeExercise l))
  /\ (forall (l : list SleepData) d, In d l ->
     isNaN (sleepDuration d) = true ->
     forall avg, ~ In (insufficient_sleep_duration avg) (analyzeSleep l)).
Proof.
  repeat split.
  - intros l d Hin Hd. rewrite analyzeDiet_rules, (nonempty_length l d Hin).
    unfold avgSugary. rewrite (ltb_NaN_r _ _ (average_NaN _ l d Hin Hd)).
    rewrite in_app_iff, !in_emit. intros [[_ H]|[H _]]; [revert H; by_title | discriminate H].
  - intros l d Hin Hveg Hprot. rewrite analyzeDiet_rules, (nonempty_length l d Hin).
    unfold avgVeg, avgProtein.
    rewrite (ltb_NaN_l _ _ (average_NaN _ l d Hin Hveg)),
            (ltb_NaN_l _ _ (average_NaN _ l d Hin Hprot)).
    rewrite in_app_iff, !in_emit. intros [[H _]|[_ H]]; [discriminate H | revert H; by_title].
  - intros l d Hin Hd avg. rewrite analyzeExercise_rules, (nonempty_length l d Hin).
    unfold avgSteps at 1. rewrite (ltb_NaN_l _ _ (average_NaN _ l d Hin Hd)).
    rewrite !in_app_iff, !in_emit.
    intros [[H _]|[[_ H]|[_ H]]]; [discriminate H | revert H; by_title ..].
  - intros l d Hin Hd. rewrite analyzeExercise_rules, (nonempty_length l d Hin).
    unfold totalModMin, reduce_sum. rewrite (ltb_NaN_l _ _ (fold_NaN _ l _ d Hin Hd)).
    rewrite !in_app_iff, !in_emit.
    intros [[_ H]|[[H _]|[_ H]]]; [revert H; by_title | discriminate H | revert H; by_title].
  - intros l d Hin Hd. rewrite analyzeExercise_rules, (nonempty_length l d Hin).
    unfold avgSitting. rewrite (ltb_NaN_r _ _ (average_NaN _ l d Hin Hd)).
    rewrite !in_app_iff, !in_emit.
    intros [[_ H]|[[_ H]|[H _]]]; [revert H; by_title .. | discriminate H].
  - intros l d Hin Hd avg. rewrite analyzeSleep_rules, (nonempty_length l d Hin).
    unfold avgSleep at 1. rewrite (ltb_NaN_l _ _ (average_NaN _ l d Hin Hd)).
    rewrite !in_app_iff, !in_emit.
    intros [[_ H]|[[H _]|[_ H]]]; [revert H; by_title | discriminate H | revert H; by_title].
Qed.

Lemma NaN_silences_rules_witness :
  ~ In excess_sugary_drinks
      (analyzeDiet (Samples.drinks 6 6 ++ [Samples.meal 0.5 0.25 nan 0])%float)
  /\ ~ In (insufficient_sleep_duration 4%float)
        (analyzeSleep [Samples.night "2024-03-04" "22:30" 4%float false;
                       Samples.night "2024-03-05" "22:30" nan false]).
Proof.
  destruct NaN_silences_rules as [Hsugar [_ [_ [_ [_ Hsleep]]]]].
  split.
  - apply (Hsugar _ (Samples.meal 0.5 0.25 nan 0)%float);
      [apply in_or_app; right; left; reflexivity | reflexivity].
  - apply (Hsleep _ (Samples.night "2024-03-05" "22:30" nan false));
      [right; left; reflexivity | reflexivity].
Defined.

(** Without the NaN entry the same meals do get the advice. *)
Lemma six_sugary_days :
  In excess_sugary_drinks (analyzeDiet (Samples.drinks 6 6)).
Proof. vm_compute. auto. Qed.

(** The counting rules of [analyzeSleep] need entries to count: no advice on
    late nights with fewer than three entries, none on the phone with fewer
    than four; three late nights are enough for the first. *)
Theorem counting_rules_need_entries (l : list SleepData) :
  (List.length l <= 2 -> ~ In frequent_late_nights (analyzeSleep l))
  /\ (List.length l <= 3 -> ~ In pre_bed_phone_use (analyzeSleep l))
  /\ (3 <= List.length l -> Forall (fun d => isLateNight d = true) l ->
      In frequent_late_nights (analyzeSleep l)).
Proof.
  pose proof (filter_length_le isLateNight l) as Hlate.
  pose proof (filter_length_le usedPhoneBeforeBed l) as Hphone.
  rewrite analyzeSleep_rules. unfold lateNights, phoneDays.
  destruct (Nat.eqb (List.length l) 0) eqn:Hlen.
  { apply Nat.eqb_eq in Hlen.
    split; [intros _ []|]. split; [intros _ []|]. intro H. lia. }
  rewrite !in_app_iff, !in_emit, !Nat.ltb_lt. repeat split.
  - intros Hl [[H _]|[[_ H]|[_ H]]]; [lia | revert H; by_title ..].
  - intros Hl [[_ H]|[[_ H]|[H _]]]; [revert H; by_title .. | lia].
  - intros Hl Hall. left. split; [|reflexivity].
    rewrite (forallb_filter_id isLateNight l); [exact Hl|].
    apply forallb_forall. intros d Hd.
    rewrite Forall_forall in Hall. apply Hall, Hd.
Qed.

Lemma counting_rules_need_entries_witness :
  ~ In frequent_late_nights
      (analyzeSleep (repeat (Samples.night "2024-03-04" "01:15" 5%float true) 2))
  /\ ~ In pre_bed_phone_use
        (analyzeSleep (repeat (Samples.night "2024-03-04" "01:15" 5%float true) 3))
  /\ In frequent_late_nights
       (analyzeSleep (repeat (Samples.night "2024-03-04" "01:15" 5%float true) 3)).
Proof.
  split; [|split].
  - apply (counting_rules_need_entries _). cbn. lia.
  - apply (counting_rules_need_entries _). cbn. lia.
  - apply (counting_rules_need_entries _); [cbn; lia | repeat constructor].
Defined.

Lemma categories_repeat (c : Category) (l : list AdviceItem) :
  Forall (fun a => category a = c) l -> map category l = repeat c (List.length l).
Proof.
  induction 1 as [|a l Ha _ IH]; cbn; [reflexivity|]. rewrite Ha, IH. reflexivity.
Qed.

Lemma analyzeDiet_shape (l : list DietData) :
  List.length (analyzeDiet l) <= 2
  /\ Forall (fun a => category a = Diet) (analyzeDiet l).
Proof.
  rewrite analyzeDiet_rules.
  destruct (Nat.eqb (List.length l) 0),
    ((avgVeg l <? 0.5) || (avgProtein l <? 0.25))%float, (0.57 <? avgSugary l)%float;
    cbn; split; try lia; repeat constructor.
Qed.

Lemma analyzeExercise_shape (l : list ExerciseData) :
  List.length (analyzeExercise l) <= 3
  /\ Forall (fun a => category a = Exercise) (analyzeExercise l).
Proof.
  rewrite analyzeExercise_rules.
  destruct (Nat.eqb (List.length l) 0),
    (avgSteps l <? 8000)%float, (totalModMin l <? 180)%float, (480 <? avgSitting l)%float;
    cbn; split; try lia; repeat constructor.
Qed.

Lemma analyzeSleep_shape (l : list SleepData) :
  List.length (analyzeSleep l) <= 3
  /\ Forall (fun a => category a = Sleep) (analyzeSleep l).
Proof.
  rewrite analyzeSleep_rules.
  destruct (Nat.eqb (List.length l) 0),
    (Nat.ltb 2 (lateNights l)), (avgSleep l <? 7.5)%float, (Nat.ltb 3 (phoneDays l));
    cbn; split; try lia; repeat constructor.
Qed.

(** The advice list of the dashboard holds at most eight items, the diet
    items first, then the exercise items, then the sleep items; it is empty
    exactly when the three analyzers have nothing to say. *)
Theorem adviceList_grouped dietData exerciseData sleepData :
  let adviceList := App.adviceList_of dietData exerciseData sleepData in
  let a := List.length (analyzeDiet dietData) in
  let b := List.length (analyzeExercise exerciseData) in
  let c := List.length (analyzeSleep sleepData) in
  map category adviceList = repeat Diet a ++ repeat Exercise b ++ repeat Sleep c
  /\ a <= 2 /\ b <= 3 /\ c <= 3 /\ List.length adviceList <= 8
  /\ (adviceList = [] <->
      analyzeDiet dietData = [] /\ analyzeExercise exerciseData = []
      /\ analyzeSleep sleepData = []).
Proof.
  cbn zeta. unfold App.adviceList_of.
  destruct (analyzeDiet_shape dietData) as [Ha Hd].
  destruct (analyzeExercise_shape exerciseData) as [Hb He].
  destruct (analyzeSleep_shape sleepData) as [Hc Hs].
  rewrite !map_app, (categories_repeat _ _ Hd), (categories_repeat _ _ He),
          (categories_repeat _ _ Hs), !length_app.
  do 5 (split; [reflexivity || lia|]). split.
  - intro H. apply app_eq_nil in H. destruct H as [H1 H2].
    apply app_eq_nil in H2. tauto.
  - intros [-> [-> ->]]. reflexivity.
Qed.

End AdviceFacts.

(** ** More on the gamification engine *)

Module ScoreFacts.
Import JS Rules Gamification FloatOrder Notions Measures NaNFacts RulesFacts.
Import PointsFacts StreakFacts.
Local Open Scope Z_scope.

Lemma SFltb_leb_trans (x y z : spec_float) :
  SFltb x y = true -> SFleb y z = true -> SFltb x z = true.
Proof.
  unfold SFltb, SFleb.
  destruct x as [sx|sx| |sx mx ex], y as [sy|sy| |sy my ey], z as [sz|sz| |sz mz ez];
    cbn [SFcompare];
    try discriminate; try reflexivity;
    try (destruct sx; try discriminate; try reflexivity);
    try (destruct sy; try discriminate; try reflexivity);
    try (destruct sz; try discriminate; try reflexivity);
    repeat match goal with
    | |- context [(?a ?= ?b)%Z] => destruct (Z.compare_spec a b)
    | |- context [PosDef.Pos.compare_cont Eq ?a ?b] =>
        change (PosDef.Pos.compare_cont Eq a b) with (Pos.compare a b);
        destruct (Pos.compare_spec a b)
    end; cbn [CompOpp]; try discriminate; try reflexivity; intros; exfalso; lia.
Qed.

Lemma ltb_leb_trans (x y z : number) :
  (x <? y)%float = true -> (y <=? z)%float = true -> (x <? z)%float = true.
Proof.
  rewrite !FloatAxioms.ltb_spec, FloatAxioms.leb_spec. apply SFltb_leb_trans.
Qed.

(** The flags of the state, read off the inputs. *)
Lemma flags diets exercises sleeps sortedSleeps :
  let st := state_from diets exercises sleeps sortedSleeps in
  unlocked "first_step" st = Nat.ltb 0 (List.length exercises)
  /\ unlocked "step_master" st
     = existsb (fun e => (10000 <=? dailySteps e)%float) exercises
  /\ unlocked "clean_eater" st
     = Nat.leb 3 (List.length (filter (fun d => (sugaryDrinksCount d =? 0)%float) diets))
  /\ completed "weekly_steps" st = (50000 <=? totalSteps exercises)%float
  /\ completed "active_week" st = (150 <=? totalModMins exercises)%float
  /\ completed "balanced_diet" st = Nat.leb 5 (balancedMeals diets).
Proof.
  unfold unlocked, completed, state_from. cbn [badges challenges].
  destruct (Nat.leb 3 (maxSleepStreak_of sortedSleeps)); repeat split.
Qed.

(** The advice on moderate exercise asks for 180 minutes and the challenge
    for 150, on the same sum: from 180 minutes on the list gets no advice and
    the challenge is completed; from 150 to under 180 it gets the advice and
    the challenge is completed all the same; under 150 it gets the advice and
    the challenge is open; a sum that is NaN gives neither. *)
Theorem moderate_exercise_targets diets (exercises : list ExerciseData) sleeps :
  exercises <> [] ->
  let minutes := totalModMins exercises in
  let st := calculateGamificationState diets exercises sleeps in
  let advised := In insufficient_moderate_exercise (analyzeExercise exercises) in
  ((180 <=? minutes)%float = true -> ~ advised /\ completed "active_week" st = true)
  /\ ((150 <=? minutes)%float = true -> (minutes <? 180)%float = true ->
      advised /\ completed "active_week" st = true)
  /\ ((minutes <? 150)%float = true -> advised /\ completed "active_week" st = false)
  /\ (isNaN minutes = true -> ~ advised /\ completed "active_week" st = false).
Proof.
  intros Hne. cbn zeta. unfold calculateGamificationState.
  destruct (flags diets exercises sleeps (sortedSleeps_of sleeps))
    as [_ [_ [_ [_ [-> _]]]]].
  assert (Hadv : In insufficient_moderate_exercise (analyzeExercise exercises)
                 <-> (totalModMins exercises <? 180)%float = true).
  { rewrite analyzeExercise_rules. destruct exercises as [|e l]; [congruence|].
    cbn [List.length Nat.eqb]. rewrite !in_app_iff, !in_emit.
    change (totalModMin (e :: l)) with (totalModMins (e :: l)). split.
    - intros [[_ H]|[[H _]|[_ H]]]; [revert H; by_title | exact H | revert H; by_title].
    - intro H. right. left. split; [exact H | reflexivity]. }
  rewrite Hadv. repeat split.
  - rewrite (leb_ltb_false _ _ H). discriminate.
  - exact (leb_trans 150 180 _ eq_refl H).
  - assumption.
  - assumption.
  - exact (ltb_leb_trans _ 150%float 180%float H eq_refl).
  - exact (ltb_leb_false _ _ H).
  - rewrite (ltb_NaN_l _ _ H). discriminate.
  - exact (leb_NaN_r _ _ H).
Qed.

Lemma moderate_exercise_targets_witness :
  let week := repeat (Samples.workout 9000%float 25%float) 7 in
  In insufficient_moderate_exercise (analyzeExercise week)
  /\ completed "active_week" (calculateGamificationState [] week []) = true.
Proof.
  apply (moderate_exercise_targets [] (repeat (Samples.workout 9000%float 25%float) 7) []);
    [discriminate | reflexivity | reflexivity].
Defined.

Section Bounds.
Context {A : Type} (step : Z -> A -> Z).
Hypothesis Hadd : additive step.
Hypothesis Hrew : rewarding step.

Lemma forEach_at_most (cap : Z) (l : list A) :
  (forall x, step 0 x <= cap) ->
  fold_left step l 0 <= cap * Z.of_nat (List.length l).
Proof.
  intro Hcap. induction l as [|x l IH] using rev_ind; [cbn; lia|].
  rewrite (forEach_snoc step Hadd), length_app, Nat2Z.inj_add. cbn.
  specialize (Hcap x). lia.
Qed.

Lemma forEach_cons (x : A) (l : list A) :
  fold_left step (x :: l) 0 = step 0 x + fold_left step l 0.
Proof. cbn. apply (forEach_additive step Hadd). Qed.

Lemma forEach_at_least (x : A) (l : list A) :
  In x l -> step 0 x <= fold_left step l 0.
Proof.
  induction l as [|y l IH]; [contradiction|]. intro Hin.
  rewrite forEach_cons.
  pose proof (proj1 (Hrew y)).
  pose proof (proj1 (forEach_rewarding step Hadd Hrew l)).
  destruct Hin as [->|Hin]; [lia|]. specialize (IH Hin). lia.
Qed.

Lemma forEach_counted (P : A -> bool) (k : Z) (l : list A) :
  (forall x, P x = true -> k <= step 0 x) ->
  k * Z.of_nat (List.length (filter P l)) <= fold_left step l 0.
Proof.
  intro Hk. induction l as [|x l IH]; [cbn; lia|].
  rewrite forEach_cons. pose proof (proj1 (Hrew x)). cbn [filter].
  destruct (P x) eqn:HP; [|lia].
  specialize (Hk x HP). cbn [List.length]. lia.
Qed.

Lemma forEach_perm (l l' : list A) :
  Permutation l l' -> fold_left step l 0 = fold_left step l' 0.
Proof.
  induction 1 as [|x l l' _ IH|x y l|l l' l'' _ IH1 _ IH2].
  - reflexivity.
  - rewrite !forEach_cons, IH. reflexivity.
  - rewrite !forEach_cons. lia.
  - congruence.
Qed.
End Bounds.

Lemma step_caps :
  (forall d, diet_step 0 d <= 40) /\ (forall e, exercise_step 0 e <= 45)
  /\ (forall s, sleep_step 0 s <= 35).
Proof.
  repeat split; intro x;
    unfold diet_step, exercise_step, sleep_step; by_cases_on_rules.
Qed.

(** The points are never negative and at most 40 for each diet entry, 45
    for each exercise entry and 35 for each sleep entry; the level is at
    least 1 and at most one more than a 200th of that bound. *)
Theorem points_bounded diets exercises sleeps :
  let st := calculateGamificationState diets exercises sleeps in
  let most := 40 * Z.of_nat (List.length diets)
              + 45 * Z.of_nat (List.length exercises)
              + 35 * Z.of_nat (List.length sleeps) in
  0 <= totalPoints st <= most /\ 1 <= level st <= most / 200 + 1.
Proof.
  cbn zeta. unfold calculateGamificationState, state_from. cbn [totalPoints level].
  rewrite points_of_sum.
  destruct step_caps as [Hd [He Hs]].
  pose proof (forEach_at_most _ diet_step_additive 40 diets Hd).
  pose proof (forEach_at_most _ exercise_step_additive 45 exercises He).
  pose proof (forEach_at_most _ sleep_step_additive 35 sleeps Hs).
  pose proof (proj1 (forEach_rewarding _ diet_step_additive diet_step_rewarding diets)).
  pose proof (proj1 (forEach_rewarding _ exercise_step_additive exercise_step_rewarding
                       exercises)).
  pose proof (proj1 (forEach_rewarding _ sleep_step_additive sleep_step_rewarding sleeps)).
  split; [lia|]. unfold level_of, pointsPerLevel.
  match goal with
  | |- _ <= ?p / 200 + 1 <= ?most / 200 + 1 =>
      assert (0 <= p / 200) by (apply Z.div_pos; lia);
      assert (p / 200 <= most / 200) by (apply Z.div_le_mono; lia)
  end.
  lia.
Qed.

(** Both bounds are met: by entries that earn nothing and by entries that
    earn every reward. *)
Lemma points_bounds_met :
  totalPoints (calculateGamificationState
                 [Samples.meal 0.1 0.1 2 1]%float [Samples.workout 100 0]%float
                 [Samples.night "2024-03-04" "22:30" 5%float true]) = 0
  /\ totalPoints (calculateGamificationState
                    [Samples.meal 0.5 0.25 0 0]%float [Samples.workout 12000 30]%float
                    [Samples.night "2024-03-04" "22:30" 8%float false]) = 40 + 45 + 35.
Proof. vm_compute. split; reflexivity. Qed.

Lemma filter_length_perm {A : Type} (P : A -> bool) (l l' : list A) :
  Permutation l l' -> List.length (filter P l) = List.length (filter P l').
Proof.
  induction 1 as [|x l l' _ IH|x y l|l l' l'' _ IH1 _ IH2]; cbn.
  - reflexivity.
  - destruct (P x); cbn; congruence.
  - destruct (P x), (P y); reflexivity.
  - congruence.
Qed.

Lemma existsb_perm {A : Type} (P : A -> bool) (l l' : list A) :
  Permutation l l' -> existsb P l = existsb P l'.
Proof.
  induction 1 as [|x l l' _ IH|x y l|l l' l'' _ IH1 _ IH2]; cbn.
  - reflexivity.
  - congruence.
  - destruct (P x), (P y); reflexivity.
  - congruence.
Qed.

(** The order in which the entries were recorded changes neither the points,
    the level and the progress, nor the badges for the first step, for the
    steps and for the diet, nor the diet challenge. *)
Theorem score_order_independent diets diets' exercises exercises' sleeps sleeps' :
  Permutation diets diets' -> Permutation exercises exercises' ->
  Permutation sleeps sleeps' ->
  let st := calculateGamificationState diets exercises sleeps in
  let st' := calculateGamificationState diets' exercises' sleeps' in
  totalPoints st = totalPoints st' /\ level st = level st'
  /\ progressToNextLevel st = progressToNextLevel st'
  /\ unlocked "first_step" st = unlocked "first_step" st'
  /\ unlocked "step_master" st = unlocked "step_master" st'
  /\ unlocked "clean_eater" st = unlocked "clean_eater" st'
  /\ completed "balanced_diet" st = completed "balanced_diet" st'.
Proof.
  intros Hd He Hs. cbn zeta. unfold calculateGamificationState.
  destruct (flags diets exercises sleeps (sortedSleeps_of sleeps))
    as [-> [-> [-> [_ [_ ->]]]]].
  destruct (flags diets' exercises' sleeps' (sortedSleeps_of sleeps'))
    as [-> [-> [-> [_ [_ ->]]]]].
  assert (Hp : points_of diets exercises sleeps = points_of diets' exercises' sleeps').
  { rewrite !points_of_sum.
    rewrite (forEach_perm _ diet_step_additive _ _ Hd),
            (forEach_perm _ exercise_step_additive _ _ He),
            (forEach_perm _ sleep_step_additive _ _ Hs). reflexivity. }
  cbn [totalPoints level progressToNextLevel state_from]. rewrite Hp.
  unfold balancedMeals.
  rewrite (Permutation_length He), (existsb_perm _ _ _ He),
          (filter_length_perm _ _ _ Hd),
          (filter_length_perm (fun d => (0.3 <=? vegRatio d) && (0.2 <=? proteinRatio d))%float
             _ _ Hd).
  repeat split.
Qed.

Lemma score_order_independent_witness :
  let a := Samples.workout 12000%float 45%float in
  let b := Samples.workout 3000%float 10%float in
  totalPoints (calculateGamificationState [] [a; b] [])
  = totalPoints (calculateGamificationState [] [b; a] []).
Proof.
  apply (score_order_independent [] [] _ _ [] []);
    [apply perm_nil | apply perm_swap | apply perm_nil].
Defined.

(** The sums of the challenges are binary64 sums and do depend on the
    order. *)
Lemma totalSteps_order_dependent :
  totalSteps [Samples.workout 1 0; Samples.workout 1 0;
              Samples.workout 9007199254740992 0]%float
  <> totalSteps [Samples.workout 9007199254740992 0; Samples.workout 1 0;
                 Samples.workout 1 0]%float.
Proof. vm_compute. discriminate. Qed.

End ScoreFacts.

(** ** Badges, points and dates *)

Module BadgeFacts.
Import JS Rules Gamification FloatOrder Notions Measures.
Import PointsFacts StreakFacts ScoreFacts.
Local Open Scope Z_scope.

Lemma ascending_same_time (a b : SleepData) :
  ascending a b -> ascending b a -> time_of a = time_of b.
Proof.
  unfold ascending. destruct (time_of a), (time_of b); try contradiction.
  intros. f_equal. lia.
Qed.

(** Entries with pairwise different dates have one ascending order. *)
Lemma ascending_unique (l1 l2 : list SleepData) :
  StronglySorted ascending l1 -> StronglySorted ascending l2 ->
  Permutation l1 l2 -> NoDup (map time_of l1) -> l1 = l2.
Proof.
  intro H1. revert l2. induction H1 as [|a t1 Hs1 IH Ha]; intros l2 H2 Hperm Hnd.
  - apply Permutation_nil in Hperm. congruence.
  - destruct H2 as [|b t2 Hs2 Hb].
    { apply Permutation_sym, Permutation_nil in Hperm. discriminate. }
    inversion Hnd as [|? ? Hnotin Hnd']; subst.
    assert (Hab : a = b).
    { assert (Hina : In a (b :: t2)) by (apply (Permutation_in _ Hperm); left; reflexivity).
      assert (Hinb : In b (a :: t1))
        by (apply (Permutation_in _ (Permutation_sym Hperm)); left; reflexivity).
      destruct Hina as [Hina|Hina]; [congruence|].
      destruct Hinb as [Hinb|Hinb]; [congruence|].
      exfalso. apply Hnotin.
      rewrite Forall_forall in Ha, Hb.
      rewrite (ascending_same_time a b (Ha b Hinb) (Hb a Hina)).
      apply in_map, Hinb. }
    subst b. f_equal. apply IH; [assumption | | assumption].
    apply Permutation_cons_inv with a, Hperm.
Qed.

(** When the sleep entries have valid, pairwise different dates, the state
    does not depend on the order in which they were recorded. *)
Theorem sleep_order_independent diets exercises sleeps sleeps' :
  Permutation sleeps sleeps' ->
  Forall dated sleeps -> NoDup (map time_of sleeps) ->
  sortedSleeps_of sleeps = sortedSleeps_of sleeps'
  /\ calculateGamificationState diets exercises sleeps
     = calculateGamificationState diets exercises sleeps'.
Proof.
  intros Hperm Hdated Hnd.
  assert (Hsorted : sortedSleeps_of sleeps = sortedSleeps_of sleeps').
  { unfold sortedSleeps_of. apply ascending_unique.
    - apply sort_ascending, Hdated.
    - apply sort_ascending, (Permutation_Forall Hperm), Hdated.
    - apply perm_trans with sleeps; [apply Permutation_sym, sort_perm|].
      apply perm_trans with sleeps'; [exact Hperm | apply sort_perm].
    - apply (Permutation_NoDup (l := map time_of sleeps)); [|exact Hnd].
      apply Permutation_map, sort_perm. }
  split; [exact Hsorted|].
  unfold calculateGamificationState, state_from. rewrite <- Hsorted.
  assert (Hp : points_of diets exercises sleeps = points_of diets exercises sleeps').
  { rewrite !points_of_sum, (forEach_perm _ sleep_step_additive _ _ Hperm). reflexivity. }
  rewrite Hp. reflexivity.
Qed.

Lemma sleep_order_independent_witness :
  calculateGamificationState [] [] scattered
  = calculateGamificationState [] [] (rev scattered).
Proof.
  apply sleep_order_independent.
  - apply Permutation_rev.
  - repeat constructor; vm_compute; discriminate.
  - vm_compute. repeat constructor; cbn; intros H;
      repeat destruct H as [H|H]; try discriminate H; try contradiction.
Defined.

(** With two entries on one day the order does matter: the sort keeps them in
    the order they were recorded. *)
Lemma same_day_order_matters :
  let good := Samples.night "2024-03-05" "22:30" 8%float false in
  let bad := Samples.night "2024-03-05" "22:30" 5%float false in
  unlocked "sleep_streak" (calculateGamificationState [] [] [good; good; good; bad]) = true
  /\ unlocked "sleep_streak" (calculateGamificationState [] [] [good; good; bad; good])
     = false.
Proof. vm_compute. split; reflexivity. Qed.

(** The badge for the steps comes with the badge for the first step and with
    at least 15 points, the badge for the diet with at least 30 points and
    the completed diet challenge with at least 100. *)
Theorem rewards_backed_by_points diets exercises sleeps :
  let st := calculateGamificationState diets exercises sleeps in
  (unlocked "step_master" st = true ->
     unlocked "first_step" st = true /\ 15 <= totalPoints st)
  /\ (unlocked "clean_eater" st = true -> 30 <= totalPoints st)
  /\ (completed "balanced_diet" st = true -> 100 <= totalPoints st).
Proof.
  cbn zeta. unfold calculateGamificationState.
  destruct (flags diets exercises sleeps (sortedSleeps_of sleeps))
    as [-> [-> [-> [_ [_ ->]]]]].
  unfold state_from. cbn [totalPoints]. rewrite points_of_sum.
  pose proof (proj1 (forEach_rewarding _ diet_step_additive diet_step_rewarding diets))
    as Hd0.
  pose proof (proj1 (forEach_rewarding _ exercise_step_additive exercise_step_rewarding
                       exercises)) as He0.
  pose proof (proj1 (forEach_rewarding _ sleep_step_additive sleep_step_rewarding sleeps))
    as Hs0.
  split; [|split].
  - intro H. apply existsb_exists in H. destruct H as [e [Hin H10]].
    split.
    + destruct exercises; [contradiction | reflexivity].
    + pose proof (forEach_at_least _ exercise_step_additive exercise_step_rewarding
                    e exercises Hin) as Hle.
      assert (H15 : 15 <= exercise_step 0 e).
      { unfold exercise_step.
        rewrite (leb_trans 8000 10000 (dailySteps e) eq_refl H10).
        by_cases_on_rules. }
      lia.
  - intro H. apply Nat.leb_le in H.
    pose proof (forEach_counted _ diet_step_additive diet_step_rewarding
                  (fun d => (sugaryDrinksCount d =? 0)%float) 10 diets) as Hc.
    assert (Hk : forall d, (sugaryDrinksCount d =? 0)%float = true -> 10 <= diet_step 0 d).
    { intros d Hd. unfold diet_step. rewrite Hd. by_cases_on_rules. }
    specialize (Hc Hk). lia.
  - intro H. apply Nat.leb_le in H. unfold balancedMeals in H.
    pose proof (forEach_counted _ diet_step_additive diet_step_rewarding
                  (fun d => (0.3 <=? vegRatio d) && (0.2 <=? proteinRatio d))%float
                  20 diets) as Hc.
    assert (Hk : forall d, ((0.3 <=? vegRatio d) && (0.2 <=? proteinRatio d))%float = true
                           -> 20 <= diet_step 0 d).
    { intros d Hd. unfold diet_step. rewrite Hd. by_cases_on_rules. }
    specialize (Hc Hk). lia.
Qed.

Lemma rewards_backed_by_points_witness :
  30 <= totalPoints (calculateGamificationState (Samples.drinks 0 3) [] []).
Proof.
  apply (proj1 (proj2 (rewards_backed_by_points (Samples.drinks 0 3) [] []))).
  reflexivity.
Defined.

(** The badge for the sleep is not backed by points: nights of more than
    nine hours count for the streak and earn nothing for their length (the
    15 points of each night are for the phone). *)
Lemma long_nights :
  let st := calculateGamificationState [] []
              (week [10; 10; 10; 10; 10; 10; 10]%float) in
  unlocked "sleep_streak" st = true /\ totalPoints st = 7 * 15.
Proof. vm_compute. split; reflexivity. Qed.

Lemma integral_part_progress (r : Z) :
  0 <= r < 200 -> r mod 5 = 0 ->
  integral_part (Math_floor ((of_Z r / of_Z pointsPerLevel) * 100)%float) = r / 2.
Proof.
  intros Hr H5.
  assert (Hj : r = 5 * Z.of_nat (Z.to_nat (r / 5))).
  { rewrite Z2Nat.id by (apply Z.div_pos; lia).
    rewrite (Z.div_mod r 5) at 1 by lia. lia. }
  assert (Hlt : (Z.to_nat (r / 5) < 40)%nat).
  { apply Nat2Z.inj_lt. rewrite Z2Nat.id by (apply Z.div_pos; lia).
    apply Z.div_lt_upper_bound; lia. }
  revert Hj Hlt. generalize (Z.to_nat (r / 5)) as j. intros j -> Hlt. clear Hr H5.
  do 40 (destruct j as [|j]; [vm_compute; reflexivity|]).
  lia.
Qed.

(** The level and the progress together tell the points: no two states
    show the same level and progress with different points. *)
Theorem points_from_level_and_progress diets exercises sleeps :
  let st := calculateGamificationState diets exercises sleeps in
  points_from (level st) (progressToNextLevel st) = totalPoints st.
Proof.
  cbn zeta. unfold calculateGamificationState, state_from.
  cbn [level progressToNextLevel totalPoints].
  destruct (points_of_multiple_of_5 diets exercises sleeps) as [H0 H5].
  set (p := points_of diets exercises sleeps) in *.
  assert (Hr : 0 <= p mod 200 < 200) by (apply Z.mod_pos_bound; lia).
  assert (Hr5 : (p mod 200) mod 5 = 0).
  { rewrite Z.mod_mod_divide by (exists 40; reflexivity). exact H5. }
  unfold points_from, progress_of, level_of.
  change (Z.rem p pointsPerLevel) with (Z.rem p 200).
  rewrite Z.rem_mod_nonneg by lia.
  rewrite (integral_part_progress (p mod 200) Hr Hr5). unfold pointsPerLevel.
  pose proof (Z.div_mod p 200 ltac:(lia)) as Hp.
  set (r := p mod 200) in *. set (q := p / 200) in *.
  pose proof (Z.div_mod r 2 ltac:(lia)) as Hr2.
  pose proof (Z.mod_pos_bound r 2 ltac:(lia)) as Hb.
  pose proof (Z.div_mod r 5 ltac:(lia)) as Hr5'. rewrite Hr5 in Hr5'.
  destruct (Z.eqb_spec ((2 * (r / 2)) mod 5) 0) as [E|E].
  - assert (r mod 2 = 0); [|lia].
    pose proof (Z.div_mod (2 * (r / 2)) 5 ltac:(lia)) as Hk. rewrite E in Hk. lia.
  - assert (r mod 2 = 1); [|lia].
    destruct (Z.eq_dec (r mod 2) 0) as [E0|E0]; [|lia].
    exfalso. apply E. replace (2 * (r / 2)) with r by lia. exact Hr5.
Qed.

End BadgeFacts.

(** ** The input views *)

Module FormFacts.
Import JS Rules Gamification FloatOrder Notions Measures NaNFacts RulesFacts.
Local Open Scope Z_scope.

Lemma digit_of_range (c : ascii) (d : Z) : digit_of c = Some d -> 0 <= d <= 9.
Proof.
  unfold digit_of. cbv zeta.
  destruct ((48 <=? Z.of_nat (nat_of_ascii c)) && (Z.of_nat (nat_of_ascii c) <=? 57))%bool
    eqn:E; [|discriminate].
  apply andb_true_iff in E. destruct E as [E1 E2].
  apply Z.leb_le in E1, E2. intro H. injection H as <-.
  revert E1 E2. generalize (Z.of_nat (nat_of_ascii c)). intros n E1 E2. lia.
Qed.

Lemma read_digits_nonneg (s : string) (acc : Z) (seen : bool) (n : Z) (rest : string) :
  read_digits acc seen s = (Some n, rest) -> 0 <= acc -> 0 <= n.
Proof.
  revert acc seen. induction s as [|c s IH]; intros acc seen H Hacc;
    cbn [read_digits] in H.
  - destruct seen; [injection H as <- _; exact Hacc | discriminate].
  - destruct (digit_of c) as [d|] eqn:Hd.
    + apply digit_of_range in Hd. apply (IH _ _ H). lia.
    + destruct seen; [injection H as <- _; exact Hacc | discriminate].
Qed.

Lemma all_digits_nonneg (s : string) (n : Z) : all_digits s = Some n -> 0 <= n.
Proof.
  unfold all_digits. destruct (read_digits 0 false s) as [[m|] rest] eqn:E; [|discriminate].
  destruct rest; [|discriminate]. intro H. injection H as <-.
  apply (read_digits_nonneg _ _ _ _ _ E). lia.
Qed.

(** A valid time of day is a whole number of minutes from 0 to 1440. *)
Lemma clock_ms_minutes (t : string) (ms : Z) :
  App.clock_ms t = Some ms -> exists k, ms = k * 60000 /\ 0 <= k <= 1440.
Proof.
  unfold App.clock_ms. destruct (negb (Nat.eqb (String.length t) 5)); [discriminate|].
  destruct (all_digits (substring 0 2 t)) as [hh|] eqn:Eh; [|discriminate].
  destruct (all_digits (substring 3 2 t)) as [mm|] eqn:Em; [|discriminate].
  apply all_digits_nonneg in Eh, Em.
  destruct (String.eqb (substring 2 1 t) ":"); [|discriminate]. cbn [andb].
  destruct (((hh <=? 23) && (mm <=? 59)) || ((hh =? 24) && (mm =? 0))) eqn:E; [|discriminate].
  intro H. injection H as <-. exists (hh * 60 + mm). split; [reflexivity|].
  apply orb_true_iff in E. rewrite !andb_true_iff, !Z.leb_le, !Z.eqb_eq in E. lia.
Qed.

Lemma durations_checked :
  forallb (fun n => duration_checked (Z.of_nat n)) (seq 0 1441) = true.
Proof. vm_compute. reflexivity. Qed.

Lemma duration_checked_all (minutes : Z) :
  0 <= minutes <= 1440 -> duration_checked minutes = true.
Proof.
  intro H. pose proof durations_checked as Hall. rewrite forallb_forall in Hall.
  specialize (Hall (Z.to_nat minutes)). rewrite Z2Nat.id in Hall by lia.
  apply Hall, in_seq. lia.
Qed.

Lemma calculateDuration_minutes (bedTime wakeTime : string) (start end_ : Z) :
  App.clock_ms bedTime = Some start -> App.clock_ms wakeTime = Some end_ ->
  App.calculateDuration bedTime wakeTime = hours_of_minutes (minutes_asleep start end_)
  /\ 0 <= minutes_asleep start end_ <= 1440.
Proof.
  intros Hs He. unfold App.calculateDuration. rewrite Hs, He.
  destruct (clock_ms_minutes _ _ Hs) as [a [-> Ha]].
  destruct (clock_ms_minutes _ _ He) as [b [-> Hb]].
  unfold hours_of_minutes, minutes_asleep.
  destruct (Z.ltb_spec (b * 60000) (a * 60000)) as [Hlt|Hge].
  - replace (b * 60000 + 86400000 - a * 60000) with ((b + 1440 - a) * 60000) by lia.
    rewrite Z.div_mul by lia. split; [reflexivity | lia].
  - replace (b * 60000 - a * 60000) with ((b - a) * 60000) by lia.
    rewrite Z.div_mul by lia. split; [reflexivity | lia].
Qed.

(** For a valid bed time and wake time [calculateDuration] is the span
    between them in hours, a wake time before the bed time being on the
    next day: a number from 0 to 24, 0 when the two times are equal.  With a
    time that is not valid it is NaN. *)
Theorem calculateDuration_range (bedTime wakeTime : string) :
  (forall start end_,
     App.clock_ms bedTime = Some start -> App.clock_ms wakeTime = Some end_ ->
     let hours := App.calculateDuration bedTime wakeTime in
     hours = hours_of_minutes (minutes_asleep start end_)
     /\ 0 <= minutes_asleep start end_ <= 1440
     /\ (0 <=? hours)%float = true /\ (hours <=? 24)%float = true
     /\ (start = end_ -> hours = 0%float))
  /\ (App.clock_ms bedTime = None \/ App.clock_ms wakeTime = None ->
      isNaN (App.calculateDuration bedTime wakeTime) = true).
Proof.
  split.
  - intros start end_ Hs He. cbn zeta.
    destruct (calculateDuration_minutes _ _ _ _ Hs He) as [-> Hm].
    pose proof (duration_checked_all _ Hm) as Hc. unfold duration_checked in Hc.
    rewrite !andb_true_iff in Hc. destruct Hc as [[[H0 H24] _] _].
    repeat split; try assumption; try lia.
    intros ->. unfold minutes_asleep. rewrite Z.ltb_irrefl, Z.sub_diag. reflexivity.
  - unfold App.calculateDuration. intros [->| ->]; [reflexivity|].
    destruct (App.clock_ms bedTime); reflexivity.
Qed.

Lemma calculateDuration_range_witness :
  App.calculateDuration "23:00" "07:00" = 8%float
  /\ App.calculateDuration "07:00" "07:00" = 0%float
  /\ isNaN (App.calculateDuration "" "07:00") = true.
Proof.
  destruct (calculateDuration_range "23:00" "07:00") as [H1 _].
  destruct (calculateDuration_range "07:00" "07:00") as [H2 _].
  destruct (calculateDuration_range "" "07:00") as [_ H3].
  split; [|split].
  - rewrite (proj1 (H1 _ _ eq_refl eq_refl)). reflexivity.
  - apply (H2 _ _ eq_refl eq_refl). reflexivity.
  - apply H3. left. reflexivity.
Defined.

(** What a saved night is worth: with valid times it earns the 20 points
    for its duration exactly from 420 to 540 minutes and counts for the
    streak exactly from 420 minutes; with a time that is not valid it earns
    no points for its duration, does not count for the streak, and silences
    the advice on the average duration for the whole list. *)
Theorem saved_night_scoring (id date bedTime wakeTime : string) (usedPhone : bool) :
  let s := App.saveSleep id date bedTime wakeTime usedPhone in
  (forall start end_,
     App.clock_ms bedTime = Some start -> App.clock_ms wakeTime = Some end_ ->
     let minutes := minutes_asleep start end_ in
     (forall points, sleep_step points s
        = points + (if (420 <=? minutes) && (minutes <=? 540) then 20 else 0)
          + (if usedPhone then 0 else 15))
     /\ good s = (420 <=? minutes))
  /\ (App.clock_ms bedTime = None \/ App.clock_ms wakeTime = None ->
      (forall points, sleep_step points s = points + (if usedPhone then 0 else 15))
      /\ good s = false
      /\ forall l avg, In s l -> ~ In (insufficient_sleep_duration avg) (analyzeSleep l)).
Proof.
  cbn zeta. split.
  - intros start end_ Hs He.
    destruct (calculateDuration_minutes _ _ _ _ Hs He) as [Hdur Hm].
    pose proof (duration_checked_all _ Hm) as Hc. unfold duration_checked in Hc.
    rewrite !andb_true_iff in Hc. destruct Hc as [[_ Hpts] Hgood].
    apply Bool.eqb_prop in Hpts, Hgood.
    unfold sleep_step, good, App.saveSleep. cbn [sleepDuration usedPhoneBeforeBed].
    rewrite Hdur, Hpts, Hgood. split; [|reflexivity].
    intro points.
    destruct ((420 <=? minutes_asleep start end_) && (minutes_asleep start end_ <=? 540)),
             usedPhone; cbn; lia.
  - intro Hbad.
    assert (Hnan : isNaN (sleepDuration (App.saveSleep id date bedTime wakeTime usedPhone))
                   = true).
    { cbn [App.saveSleep sleepDuration]. unfold App.calculateDuration.
      destruct Hbad as [-> | ->]; [reflexivity|].
      destruct (App.clock_ms bedTime); reflexivity. }
    split; [|split].
    + intro points. unfold sleep_step. rewrite (leb_NaN_r _ _ Hnan).
      cbn [andb App.saveSleep usedPhoneBeforeBed]. destruct usedPhone; cbn; lia.
    + unfold good. apply leb_NaN_r, Hnan.
    + intros l avg Hin. rewrite analyzeSleep_rules.
      destruct l as [|d l]; [contradiction|]. cbn [List.length Nat.eqb].
      unfold avgSleep at 1.
      assert (Havg : isNaN (reduce_sum sleepDuration (d :: l) / length_of (d :: l))%float
                     = true)
        by (apply div_NaN_l, (fold_NaN sleepDuration (d :: l) _ _ Hin Hnan)).
      rewrite (ltb_NaN_l _ _ Havg), !in_app_iff, !in_emit.
      intros [[_ H]|[[H _]|[_ H]]];
        [revert H; by_title | discriminate H | revert H; by_title].
Qed.

Lemma saved_night_scoring_witness :
  sleep_step 0 (App.saveSleep "s" "2024-03-04" "23:00" "07:00" false) = 35
  /\ good (App.saveSleep "s" "2024-03-04" "" "07:00" false) = false.
Proof.
  split.
  - rewrite (proj1 (proj1 (saved_night_scoring "s" "2024-03-04" "23:00" "07:00" false)
                      _ _ eq_refl eq_refl)).
    reflexivity.
  - apply (proj2 (saved_night_scoring "s" "2024-03-04" "" "07:00" false)).
    left. reflexivity.
Defined.

Lemma or_else_number (value : option number) :
  isNaN (App.or_else value 0%float) = false.
Proof.
  unfold App.or_else, App.truthy, isNaN. destruct value as [v|]; [|reflexivity].
  destruct (v =? 0)%float, (v =? v)%float eqn:E; cbn; try reflexivity. rewrite E. reflexivity.
Qed.

Lemma or_else_entered (field : option number) :
  App.or_else field 0%float = entered_or_zero field.
Proof.
  unfold App.or_else, App.truthy, entered_or_zero, isNaN.
  destruct field as [v|]; [|reflexivity].
  destruct (v =? 0)%float, (v =? v)%float; reflexivity.
Qed.

(** The diet form saves an entry exactly when the calories are given.  The
    entry takes the id, the date and the calories of the form and no image;
    each of the three ratios and the two counts is the number entered when
    that is a number other than zero, and 0 when the field is [undefined],
    NaN or zero, so none of them is NaN. *)
Theorem diet_form_submit (id : string) (formData : App.DietFormData) :
  (App.handleSubmit id formData = None <-> App.form_calorieIntake formData = None)
  /\ forall d, App.handleSubmit id formData = Some d ->
       diet_id d = id /\ diet_date d = App.form_date formData
       /\ App.form_calorieIntake formData = Some (calorieIntake d)
       /\ imageUrl d = None
       /\ vegRatio d = entered_or_zero (App.form_vegRatio formData)
       /\ proteinRatio d = entered_or_zero (App.form_proteinRatio formData)
       /\ starchRatio d = entered_or_zero (App.form_starchRatio formData)
       /\ sugaryDrinksCount d = entered_or_zero (App.form_sugaryDrinksCount formData)
       /\ friedFoodCount d = entered_or_zero (App.form_friedFoodCount formData)
       /\ isNaN (vegRatio d) = false /\ isNaN (proteinRatio d) = false
       /\ isNaN (starchRatio d) = false /\ isNaN (sugaryDrinksCount d) = false
       /\ isNaN (friedFoodCount d) = false
       /\ (forall v, App.form_vegRatio formData = Some v -> App.truthy v = true ->
           vegRatio d = v)
       /\ (forall v, App.form_sugaryDrinksCount formData = Some v -> App.truthy v = true ->
           sugaryDrinksCount d = v).
Proof.
  unfold App.handleSubmit.
  destruct (App.form_calorieIntake formData) as [calories|]; split;
    try (split; congruence); try discriminate.
  intros d H. injection H as <-.
  cbn [diet_id diet_date calorieIntake vegRatio proteinRatio starchRatio
       sugaryDrinksCount friedFoodCount imageUrl].
  do 4 (split; [reflexivity|]).
  do 5 (split; [apply or_else_entered|]).
  rewrite !or_else_number. repeat split.
  - intros v -> Hv. unfold App.or_else. rewrite Hv. reflexivity.
  - intros v -> Hv. unfold App.or_else. rewrite Hv. reflexivity.
Qed.

Lemma diet_form_submit_witness :
  match App.handleSubmit "m"
          {| App.form_date := "2024-03-04";
             App.form_calorieIntake := Some 650%float;
             App.form_vegRatio := Some nan;
             App.form_proteinRatio := None;
             App.form_starchRatio := Some 0.3%float;
             App.form_sugaryDrinksCount := Some 2%float;
             App.form_friedFoodCount := Some 7%float |} with
  | Some d => vegRatio d = 0%float /\ proteinRatio d = 0%float
              /\ starchRatio d = 0.3%float /\ sugaryDrinksCount d = 2%float
              /\ friedFoodCount d = 7%float
  | None => False
  end.
Proof.
  match goal with
  | |- match App.handleSubmit ?id ?f with _ => _ end =>
      pose proof (diet_form_submit id f) as [_ Hd];
      destruct (App.handleSubmit id f) as [d|] eqn:E; [|discriminate E]
  end.
  destruct (Hd d eq_refl)
    as [_ [_ [_ [_ [Hveg [Hprot [Hstarch [Hsugar [Hfried _]]]]]]]]].
  rewrite Hveg, Hprot, Hstarch, Hsugar, Hfried. repeat split.
Defined.

End FormFacts.

(** ** The sample data *)

Module MockFacts.
Import JS Rules Gamification Notions Measures RulesFacts.
Local Open Scope nat_scope.

(** Whatever the clock and the random numbers, the sample data hold seven
    entries of each kind, dated by the seven computed days.  All seven
    nights have the bed time 23:45, so the sample data always draw the advice
    on late nights; and the badge for the first step is unlocked. *)
Theorem mock_data_shape (date_at : nat -> string) (random : nat -> number)
    (toString : number -> string) :
  let '(diets, exercises, sleeps) := App.generateMockData date_at random toString in
  List.length diets = 7 /\ List.length exercises = 7 /\ List.length sleeps = 7
  /\ map diet_date diets = map date_at (seq 0 7)
  /\ map exercise_date exercises = map date_at (seq 0 7)
  /\ map sleep_date sleeps = map date_at (seq 0 7)
  /\ Forall (fun s => bedTime s = "23:45"%string) sleeps
  /\ In frequent_late_nights (analyzeSleep sleeps)
  /\ unlocked "first_step" (calculateGamificationState diets exercises sleeps) = true.
Proof.
  unfold App.generateMockData.
  do 6 (split; [reflexivity|]). split; [repeat constructor|]. split.
  - rewrite analyzeSleep_rules.
    assert (Hlate : lateNights (App.mock_sleeps date_at random toString) = 7)
      by reflexivity.
    rewrite Hlate. cbn [List.length Nat.eqb Nat.ltb Nat.leb emit app App.mock_sleeps
                        App.mock_dates map seq].
    left. reflexivity.
  - unfold calculateGamificationState.
    destruct (ScoreFacts.flags (App.mock_diets date_at random toString)
                (App.mock_exercises date_at random toString)
                (App.mock_sleeps date_at random toString)
                (sortedSleeps_of (App.mock_sleeps date_at random toString)))
      as [-> _].
    reflexivity.
Qed.

End MockFacts.

(** ** The dashboard layout *)

Module LayoutFacts.
Import JS Measures.
Local Open Scope nat_scope.

Lemma layout_eta (l : Layout.DashboardLayout) :
  {| Layout.layout_id := Layout.layout_id l; Layout.name := Layout.name l;
     Layout.widgets := Layout.widgets l |} = l.
Proof. destruct l. reflexivity. Qed.

Lemma filter_idem {A : Type} (P : A -> bool) (l : list A) :
  filter P (filter P l) = filter P l.
Proof. apply forallb_filter_id, forallb_filter. Qed.

Lemma keep_absent (id' : string) (ws : list Layout.WidgetConfig) :
  ~ In id' (map Layout.id ws) ->
  filter (fun w => negb (String.eqb (Layout.id w) id')) ws = ws.
Proof.
  intro Hnot. apply forallb_filter_id, forallb_forall. intros w Hw.
  apply negb_true_iff, String.eqb_neq. intros <-. apply Hnot, in_map, Hw.
Qed.

Lemma kept_in_order {A : Type} (P : A -> bool) (l : list A) :
  Notions.Subseq (filter P l) l.
Proof.
  induction l as [|x l IH]; cbn; [constructor|].
  destruct (P x); constructor; exact IH.
Qed.

Lemma kept_and_removed {A : Type} (P : A -> bool) (l : list A) :
  List.length (filter (fun x => negb (P x)) l) + List.length (filter P l)
  = List.length l.
Proof.
  induction l as [|x l IH]; cbn; [reflexivity|].
  destruct (P x); cbn; lia.
Qed.

(** [handleRemoveWidget] takes away exactly the widgets with the given id
    and keeps the others in their order, with the name of the layout: what is
    left is the layout read from first to last without those widgets.  When
    one widget has the id, what is left is what stood before it followed by
    what stood after it.  Removing an id that no widget has, or removing a
    second time, changes nothing. *)
Theorem remove_widget (id' : string) (prev : Layout.DashboardLayout) :
  let next := Layout.handleRemoveWidget id' prev in
  Layout.layout_id next = Layout.layout_id prev
  /\ Layout.name next = Layout.name prev
  /\ (forall w, In w (Layout.widgets next)
                <-> In w (Layout.widgets prev) /\ Layout.id w <> id')
  /\ Notions.Subseq (Layout.widgets next) (Layout.widgets prev)
  /\ List.length (Layout.widgets next)
     + List.length (filter (fun w => String.eqb (Layout.id w) id') (Layout.widgets prev))
     = List.length (Layout.widgets prev)
  /\ (exists removed, Permutation (Layout.widgets prev) (Layout.widgets next ++ removed)
                      /\ Forall (fun w => Layout.id w = id') removed)
  /\ (forall before w after,
        Layout.widgets prev = before ++ w :: after -> Layout.id w = id' ->
        ~ In id' (map Layout.id before) -> ~ In id' (map Layout.id after) ->
        Layout.widgets next = before ++ after)
  /\ (~ In id' (map Layout.id (Layout.widgets prev)) -> next = prev)
  /\ Layout.handleRemoveWidget id' next = next.
Proof.
  cbn zeta. unfold Layout.handleRemoveWidget. cbn [Layout.layout_id Layout.name Layout.widgets].
  do 2 (split; [reflexivity|]). split; [|split; [|split; [|split; [|split; [|split]]]]].
  - intro w. rewrite filter_In, negb_true_iff, String.eqb_neq. reflexivity.
  - apply kept_in_order.
  - apply (kept_and_removed (fun w => String.eqb (Layout.id w) id')).
  - exists (filter (fun w => String.eqb (Layout.id w) id') (Layout.widgets prev)). split.
    + induction (Layout.widgets prev) as [|w ws IH]; cbn; [constructor|].
      destruct (String.eqb (Layout.id w) id'); cbn.
      * apply Permutation_cons_app, IH.
      * apply perm_skip, IH.
    + apply Forall_forall. intros w Hw. apply filter_In in Hw.
      apply String.eqb_eq, Hw.
  - intros before w after -> Hw Hb Ha.
    rewrite filter_app. cbn [filter]. rewrite Hw, String.eqb_refl. cbn [negb].
    rewrite (keep_absent _ _ Hb), (keep_absent _ _ Ha). reflexivity.
  - intro Hnot. rewrite (keep_absent _ _ Hnot). apply layout_eta.
  - rewrite filter_idem. reflexivity.
Qed.

Lemma remove_widget_witness :
  Layout.handleRemoveWidget "weather" Layout.DEFAULT_LAYOUT = Layout.DEFAULT_LAYOUT
  /\ map Layout.id (Layout.widgets (Layout.handleRemoveWidget "steps" Layout.DEFAULT_LAYOUT))
     = ["summary"; "gamification"; "nutrition"; "sleep"; "advice"]%string.
Proof.
  split.
  - apply (proj1 (proj2 (proj2 (proj2 (proj2 (proj2 (proj2 (proj2
             (remove_widget "weather" Layout.DEFAULT_LAYOUT))))))))).
    vm_compute. intro H. repeat destruct H as [H|H]; try discriminate H; contradiction.
  - rewrite (proj1 (proj2 (proj2 (proj2 (proj2 (proj2 (proj2
               (remove_widget "steps" Layout.DEFAULT_LAYOUT)))))))
             (firstn 2 (Layout.widgets Layout.DEFAULT_LAYOUT))
             (Layout.widget "steps" Layout.STEPS_CHART "步數趨勢" 0 2 6 3)%float
             (skipn 3 (Layout.widgets Layout.DEFAULT_LAYOUT))
             eq_refl eq_refl).
    + reflexivity.
    + vm_compute. intro H. repeat destruct H as [H|H]; try discriminate H; contradiction.
    + vm_compute. intro H. repeat destruct H as [H|H]; try discriminate H; contradiction.
Defined.

Lemma remove_added (now : Z) (type : Layout.WidgetType) (prev : Layout.DashboardLayout) :
  Layout.handleRemoveWidget (new_widget_id type now) (Layout.handleAddWidget now type prev)
  = Layout.handleRemoveWidget (new_widget_id type now) prev.
Proof.
  unfold Layout.handleRemoveWidget, Layout.handleAddWidget, new_widget_id.
  cbn [Layout.layout_id Layout.name Layout.widgets]. f_equal.
  rewrite filter_app. cbn [filter Layout.id].
  rewrite String.eqb_refl. cbn. apply app_nil_r.
Qed.

(** Removing the widget that [handleAddWidget] has just added undoes the
    addition when no other widget has its id; in any case it leaves what
    removing that id from the layout before the addition leaves. *)
Theorem add_then_remove (now : Z) (type : Layout.WidgetType) (prev : Layout.DashboardLayout) :
  let added := Layout.handleAddWidget now type prev in
  let id' := new_widget_id type now in
  (exists w, Layout.widgets added = Layout.widgets prev ++ [w]
             /\ Layout.id w = id' /\ Layout.type w = type
             /\ Layout.title w = Layout.WIDGET_TITLES type)
  /\ Layout.handleRemoveWidget id' added = Layout.handleRemoveWidget id' prev
  /\ (~ In id' (map Layout.id (Layout.widgets prev)) ->
      Layout.handleRemoveWidget id' added = prev).
Proof.
  cbn zeta. pose proof (remove_added now type prev) as Hrem.
  split; [|split].
  - eexists. split; [reflexivity|]. repeat split.
  - exact Hrem.
  - intro Hnot. rewrite Hrem. unfold Layout.handleRemoveWidget.
    rewrite (keep_absent _ _ Hnot). apply layout_eta.
Qed.

Lemma add_then_remove_witness :
  Layout.handleRemoveWidget (new_widget_id Layout.AI_REPORT 1709251200000)
    (Layout.handleAddWidget 1709251200000 Layout.AI_REPORT Layout.DEFAULT_LAYOUT)
  = Layout.DEFAULT_LAYOUT.
Proof.
  apply (proj2 (proj2
           (add_then_remove 1709251200000 Layout.AI_REPORT Layout.DEFAULT_LAYOUT))).
  vm_compute. intro H. repeat destruct H as [H|H]; try discriminate H; contradiction.
Defined.

Lemma digits_of_inj (a b : Z) : digits_of a = digits_of b -> a = b.
Proof.
  unfold digits_of. intro H. apply to_int_inj.
  assert (Hnil : forall z, Z.to_int z <> Decimal.Pos Decimal.Nil
                           /\ Z.to_int z <> Decimal.Neg Decimal.Nil).
  { intros [|q|q]; cbn; split; try discriminate;
      intro E; injection E as E; exact (Unsigned.to_uint_nonnil q E). }
  pose proof (NilZero.isi (Z.to_int a) (proj1 (Hnil a)) (proj2 (Hnil a))) as Ha.
  pose proof (NilZero.isi (Z.to_int b) (proj1 (Hnil b)) (proj2 (Hnil b))) as Hb.
  rewrite H in Ha. congruence.
Qed.

Lemma append_inj (p a b : string) : (p ++ a = p ++ b)%string -> a = b.
Proof.
  induction p as [|c p IH]; cbn; intro H; [exact H|].
  injection H as H. apply IH, H.
Qed.

(** Two widgets get the same id from [handleAddWidget] exactly when they
    have the same type and are added at the same reading of the clock. *)
Theorem new_widget_ids (type type' : Layout.WidgetType) (now now' : Z) :
  new_widget_id type now = new_widget_id type' now' <-> type = type' /\ now = now'.
Proof.
  split; [|intros [-> ->]; reflexivity].
  unfold new_widget_id. intro H.
  assert (Ht : type = type').
  { destruct type, type'; try reflexivity; cbn in H; discriminate H. }
  subst type'. split; [reflexivity|].
  apply append_inj in H. apply (append_inj "_") in H. apply digits_of_inj, H.
Qed.

(** At one reading of the clock two widgets of one type share their id, and
    removing it removes both. *)
Lemma same_millisecond (now : Z) (type : Layout.WidgetType) (prev : Layout.DashboardLayout) :
  Layout.handleRemoveWidget (new_widget_id type now)
    (Layout.handleAddWidget now type (Layout.handleAddWidget now type prev))
  = Layout.handleRemoveWidget (new_widget_id type now) prev.
Proof.
  rewrite remove_added. apply remove_added.
Qed.

End LayoutFacts.

(** ** The grid of the dashboard *)

Module GridFacts.
Import JS Measures.
Local Open Scope nat_scope.

Lemma widget_eta (w : Layout.WidgetConfig) : placed_at (item_of w) w = w.
Proof. destruct w. reflexivity. Qed.

Lemma handleLayoutChange_moved (layout : Layout.DashboardLayout)
    (currentLayout : list Grid.Item) :
  Layout.widgets (Grid.handleLayoutChange layout currentLayout)
  = map (moved currentLayout) (Layout.widgets layout).
Proof. reflexivity. Qed.

Lemma moved_keeps (currentLayout : list Grid.Item) (w : Layout.WidgetConfig) :
  Layout.id (moved currentLayout w) = Layout.id w
  /\ Layout.type (moved currentLayout w) = Layout.type w
  /\ Layout.title (moved currentLayout w) = Layout.title w
  /\ Layout.minW (moved currentLayout w) = Layout.minW w
  /\ Layout.minH (moved currentLayout w) = Layout.minH w.
Proof. unfold moved. destruct (find _ currentLayout); repeat split. Qed.

Lemma moved_twice (currentLayout : list Grid.Item) (w : Layout.WidgetConfig) :
  moved currentLayout (moved currentLayout w) = moved currentLayout w.
Proof.
  unfold moved at 1. rewrite (proj1 (moved_keeps currentLayout w)).
  unfold moved. destruct (find _ currentLayout); reflexivity.
Qed.

(** [handleLayoutChange] keeps the widgets, in their order, with their ids,
    types, titles and minimum sizes, and the name of the layout; a widget
    that no item of the grid names stays where it is, the others take the
    place and size of the first item with their id; applying the same grid
    again changes nothing more. *)
Theorem layout_change_keeps_widgets (layout : Layout.DashboardLayout)
    (currentLayout : list Grid.Item) :
  let next := Grid.handleLayoutChange layout currentLayout in
  Layout.layout_id next = Layout.layout_id layout
  /\ Layout.name next = Layout.name layout
  /\ List.length (Layout.widgets next) = List.length (Layout.widgets layout)
  /\ map Layout.id (Layout.widgets next) = map Layout.id (Layout.widgets layout)
  /\ map Layout.type (Layout.widgets next) = map Layout.type (Layout.widgets layout)
  /\ map Layout.title (Layout.widgets next) = map Layout.title (Layout.widgets layout)
  /\ (forall w, In w (Layout.widgets layout) ->
        (forall item, In item currentLayout -> Grid.i item <> Layout.id w) ->
        In w (Layout.widgets next))
  /\ (forall n w, nth_error (Layout.widgets layout) n = Some w ->
        forall item,
        find (fun item => String.eqb (Grid.i item) (Layout.id w)) currentLayout = Some item ->
        nth_error (Layout.widgets next) n = Some (placed_at item w))
  /\ Grid.handleLayoutChange next currentLayout = next.
Proof.
  cbn zeta.
  assert (Hkeep : forall f : Layout.WidgetConfig -> string,
             (forall w, f (moved currentLayout w) = f w) ->
             map f (map (moved currentLayout) (Layout.widgets layout))
             = map f (Layout.widgets layout)).
  { intros f Hf. rewrite map_map. apply map_ext. exact Hf. }
  do 2 (split; [reflexivity|]). rewrite handleLayoutChange_moved.
  split; [apply length_map|].
  split; [apply Hkeep; intro w; apply (moved_keeps currentLayout w)|].
  split; [rewrite map_map; apply map_ext; intro w; apply (moved_keeps currentLayout w)|].
  split; [apply Hkeep; intro w; apply (moved_keeps currentLayout w)|].
  split; [|split].
  - intros w Hw Hnone. apply in_map_iff. exists w. split; [|exact Hw].
    unfold moved.
    destruct (find (fun item => String.eqb (Grid.i item) (Layout.id w)) currentLayout)
      as [item|] eqn:E; [|reflexivity].
    apply find_some in E. destruct E as [Hin E]. apply String.eqb_eq in E.
    exfalso. exact (Hnone item Hin E).
  - intros n w Hn item Hitem. rewrite nth_error_map, Hn. cbn.
    unfold moved. rewrite Hitem. reflexivity.
  - unfold Grid.handleLayoutChange at 1.
    cbn [Layout.layout_id Layout.name]. unfold Grid.handleLayoutChange.
    cbn [Layout.widgets]. f_equal.
    change (map (moved currentLayout) (map (moved currentLayout) (Layout.widgets layout))
            = map (moved currentLayout) (Layout.widgets layout)).
    rewrite map_map. apply map_ext. apply moved_twice.
Qed.

Lemma layout_change_keeps_widgets_witness :
  In (Layout.widget "sleep" Layout.SLEEP_BAR "睡眠時數" 0 5 6 3)%float
     (Layout.widgets
        (Grid.handleLayoutChange Layout.DEFAULT_LAYOUT
           [item_of (Layout.widget "steps" Layout.STEPS_CHART "步數趨勢" 6 9 6 3)%float])).
Proof.
  apply (proj1 (proj2 (proj2 (proj2 (proj2 (proj2 (proj2
           (layout_change_keeps_widgets Layout.DEFAULT_LAYOUT _)))))))).
  - cbn. auto 8.
  - intros item [<-|[]]. discriminate.
Defined.

Lemma find_own_item (ws : list Layout.WidgetConfig) (w : Layout.WidgetConfig) :
  NoDup (map Layout.id ws) -> In w ws ->
  find (fun item => String.eqb (Grid.i item) (Layout.id w)) (map item_of ws)
  = Some (item_of w).
Proof.
  induction ws as [|a ws IH]; intros Hnd Hin; [contradiction|].
  inversion Hnd as [|? ? Hnotin Hnd']; subst. cbn [map find item_of Grid.i].
  destruct Hin as [->|Hin].
  - rewrite String.eqb_refl. reflexivity.
  - destruct (String.eqb_spec (Layout.id a) (Layout.id w)) as [E|E].
    + exfalso. apply Hnotin. rewrite E. apply in_map, Hin.
    + apply IH; assumption.
Qed.

(** When the widgets have pairwise different ids, giving the grid the items
    made of the layout and taking them back leaves the layout as it was.  On
    an empty grid the layout is unchanged whatever the ids. *)
Theorem layout_round_trip (layout : Layout.DashboardLayout) :
  (NoDup (map Layout.id (Layout.widgets layout)) ->
   Grid.handleLayoutChange layout (Grid.gridLayouts_lg layout) = layout)
  /\ Grid.handleLayoutChange layout [] = layout.
Proof.
  split.
  - intro Hnd. destruct layout as [lid name ws]. unfold Grid.handleLayoutChange.
    cbn [Layout.layout_id Layout.name Layout.widgets] in *. f_equal.
    change (map (moved (map item_of ws)) ws = ws).
    rewrite <- (map_id ws) at 3. apply map_ext_in. intros w Hw.
    unfold moved. rewrite (find_own_item ws w Hnd Hw). apply widget_eta.
  - destruct layout as [lid name ws]. unfold Grid.handleLayoutChange.
    cbn [Layout.layout_id Layout.name Layout.widgets find]. f_equal. apply map_id.
Qed.

Lemma layout_round_trip_witness :
  Grid.handleLayoutChange Layout.DEFAULT_LAYOUT (Grid.gridLayouts_lg Layout.DEFAULT_LAYOUT)
  = Layout.DEFAULT_LAYOUT.
Proof.
  apply (proj1 (layout_round_trip Layout.DEFAULT_LAYOUT)).
  vm_compute. repeat constructor; cbn; intro H;
    repeat destruct H as [H|H]; try discriminate H; try contradiction.
Defined.

(** With one id on two widgets the second takes the place of the first. *)
Lemma shared_id_collapses :
  let a := (Layout.widget "steps" Layout.STEPS_CHART "步數趨勢" 0 0 6 3)%float in
  let b := (Layout.widget "steps" Layout.STEPS_CHART "步數趨勢" 6 0 6 3)%float in
  let layout := {| Layout.layout_id := "l"; Layout.name := "n"; Layout.widgets := [a; b] |} in
  Layout.widgets (Grid.handleLayoutChange layout (Grid.gridLayouts_lg layout)) = [a; a].
Proof. vm_compute. reflexivity. Qed.

End GridFacts.

(** ** The data of the charts *)

Module ChartFacts.
Import JS Measures.
Local Open Scope nat_scope.

Lemma tl_skipn {A : Type} (k : nat) (l : list A) : tl (skipn k l) = skipn (S k) l.
Proof.
  revert l. induction k as [|k IH]; intros [|x l]; try reflexivity.
  cbn [skipn]. rewrite IH. destruct l; reflexivity.
Qed.

(** The window of seven over the entries: the charts show the last seven
    entries, or all of them when there are fewer, in the order recorded; once
    seven are shown, a new entry pushes the oldest one out. *)
Theorem chart_window {A : Type} (data : list A) (d : A) :
  (exists older, data = older ++ Charts.slice_last7 data
                 /\ List.length older = List.length data - 7)
  /\ List.length (Charts.slice_last7 data) = Nat.min 7 (List.length data)
  /\ (List.length data <= 7 -> Charts.slice_last7 data = data)
  /\ (List.length data < 7 ->
      Charts.slice_last7 (App.handleSubmit_append d data) = data ++ [d])
  /\ (7 <= List.length data ->
      Charts.slice_last7 (App.handleSubmit_append d data)
      = tl (Charts.slice_last7 data) ++ [d]).
Proof.
  unfold Charts.slice_last7, App.handleSubmit_append.
  split; [|split; [|split; [|split]]].
  - exists (firstn (List.length data - 7) data). split.
    + symmetry. apply firstn_skipn.
    + rewrite length_firstn. lia.
  - rewrite length_skipn. lia.
  - intro H. replace (List.length data - 7) with 0 by lia. reflexivity.
  - intro H. rewrite length_app. cbn [List.length].
    replace (List.length data + 1 - 7) with 0 by lia. reflexivity.
  - intro H. rewrite length_app, tl_skipn. cbn [List.length].
    replace (List.length data + 1 - 7) with (S (List.length data - 7)) by lia.
    rewrite skipn_app.
    replace (S (List.length data - 7) - List.length data) with 0 by lia.
    reflexivity.
Qed.

Lemma chart_window_witness :
  Charts.slice_last7 (App.handleSubmit_append 8 [1; 2; 3; 4; 5; 6; 7])
  = [2; 3; 4; 5; 6; 7; 8].
Proof.
  rewrite (proj2 (proj2 (proj2 (proj2 (chart_window [1; 2; 3; 4; 5; 6; 7] 8)))));
    [reflexivity | cbn; lia].
Defined.

Lemma substring_all (s : string) : substring 0 (String.length s) s = s.
Proof. induction s as [|c s IH]; cbn; [reflexivity|]. rewrite IH. reflexivity. Qed.

Lemma substring5_date (year_ rest : string) :
  String.length year_ = 5 -> Charts.substring5 (year_ ++ rest) = rest.
Proof.
  destruct year_ as [|c1 [|c2 [|c3 [|c4 [|c5 [|c6 y]]]]]]; try discriminate.
  intros _. unfold Charts.substring5. cbn [String.append String.length Nat.sub substring].
  rewrite Nat.sub_0_r. apply substring_all.
Qed.

(** The points of the step chart and of the sleep chart are the steps and
    the hours of the last seven entries, in their order, each named by its
    date without the first five characters (the month and day of a date
    [YYYY-MM-DD]). *)
Theorem chart_points (exercises : list ExerciseData) (sleeps : list SleepData) :
  map Charts.steps (Charts.StepsChart_data exercises)
  = Charts.slice_last7 (map dailySteps exercises)
  /\ map Charts.hours (Charts.SleepBarChart_data sleeps)
     = Charts.slice_last7 (map sleepDuration sleeps)
  /\ List.length (Charts.StepsChart_data exercises) = Nat.min 7 (List.length exercises)
  /\ List.length (Charts.SleepBarChart_data sleeps) = Nat.min 7 (List.length sleeps)
  /\ (forall p, In p (Charts.StepsChart_data exercises) ->
        exists e, In e exercises /\ Charts.steps p = dailySteps e
                  /\ forall year_ rest, exercise_date e = (year_ ++ rest)%string ->
                       String.length year_ = 5 -> Charts.steps_name p = rest).
Proof.
  unfold Charts.StepsChart_data, Charts.SleepBarChart_data, Charts.slice_last7.
  split; [rewrite map_map, length_map, skipn_map; reflexivity|].
  split; [rewrite map_map, length_map, skipn_map; reflexivity|].
  split; [rewrite length_map, length_skipn; lia|].
  split; [rewrite length_map, length_skipn; lia|].
  intros p Hp. apply in_map_iff in Hp. destruct Hp as [e [<- He]].
  exists e. split; [|split; [reflexivity|]].
  - rewrite <- (firstn_skipn (List.length exercises - 7) exercises).
    apply in_or_app. right. exact He.
  - intros year_ rest -> Hlen. cbn [Charts.steps_name]. apply substring5_date, Hlen.
Qed.

(** On no data the pie chart divides by 1 and shows three slices of 0. *)
Lemma pie_without_data :
  map Charts.value (Charts.NutritionPieChart_data []) = [0; 0; 0]%float.
Proof. reflexivity. Qed.

End ChartFacts.

(** ** The calls of the service *)

Module GeminiFacts.
Import JS Measures.

(** A report is always shown after [handleGenerateReport]: the summary is
    never empty and the flag is down.  It is the text of the service when the
    key is set and the service answers with a text that is not empty;
    otherwise it is one of three fixed texts, which tell a missing key, a
    failed call and an empty answer apart. *)
Theorem report_always_shown (API_KEY : option string) (call : Gemini.Call) :
  let '(summary, isGenerating) := Gemini.handleGenerateReport API_KEY call in
  summary <> EmptyString /\ isGenerating = false
  /\ (Gemini.getClient API_KEY = Gemini.Rejected
      <-> Gemini.generateWeeklyReportAI API_KEY call = Gemini.Rejected)
  /\ (Gemini.getClient API_KEY = Gemini.Rejected ->
      summary = "報告生成失敗，請檢查網路連線。"%string)
  /\ (Gemini.getClient API_KEY = Gemini.Resolved tt ->
      match call with
      | Gemini.Throws => summary = "生成報告時發生錯誤。"%string
      | Gemini.Responds None | Gemini.Responds (Some EmptyString) =>
          summary = "無法生成報告，請稍後再試。"%string
      | Gemini.Responds (Some text) => summary = text
      end).
Proof.
  unfold Gemini.handleGenerateReport, Gemini.generateWeeklyReportAI.
  destruct (Gemini.getClient API_KEY) as [[]|] eqn:Ek.
  - destruct call as [[[|c t]|]|]; repeat split; try discriminate; try reflexivity.
  - repeat split; try discriminate; try reflexivity.
Qed.

Lemma report_always_shown_witness :
  fst (Gemini.handleGenerateReport None (Gemini.Responds (Some "ok"%string)))
  = "報告生成失敗，請檢查網路連線。"%string
  /\ fst (Gemini.handleGenerateReport (Some "key"%string) Gemini.Throws)
     = "生成報告時發生錯誤。"%string.
Proof.
  pose proof (report_always_shown None (Gemini.Responds (Some "ok"%string))) as H1.
  pose proof (report_always_shown (Some "key"%string) Gemini.Throws) as H2.
  destruct (Gemini.handleGenerateReport None (Gemini.Responds (Some "ok"%string)))
    as [s1 f1] eqn:E1.
  destruct (Gemini.handleGenerateReport (Some "key"%string) Gemini.Throws)
    as [s2 f2] eqn:E2.
  split.
  - apply H1. reflexivity.
  - apply (proj2 (proj2 (proj2 (proj2 H2)))). reflexivity.
Defined.

End GeminiFacts.
